(** * debug.h: leveled, location-tagged diagnostic macros

    A shallow embedding of [debug.h] and the properties of its
    specification.  The header consists of two globals ([debug_stream],
    [debug_level]) and a family of function-like macros which exist in two
    versions, selected by [#ifdef DEBUG].

    Modelling choices.
    - A macro substitutes the text of its arguments, so an argument is an
      expression that is evaluated where (and as often as) the expansion
      mentions it.  Arguments are therefore state transformers ([expr]),
      not values.
    - The process is a [world]: the two globals, the caller's own state and
      the chronological trace of what stdio was asked to do.
    - [fprintf] interprets its format string.  The directives [%s], [%d]
      and [%%] are modelled.  For any other use of [%], a missing argument
      or an argument of the wrong kind the model gives no output ([None]):
      the call is either undefined in C or outside what is modelled, and
      [None] says no more than that the model does not follow it.
    - Integer levels carry their C type, because the level gate compares the
      level with an [unsigned int] and with the [int] constant [0] under
      the usual arithmetic conversions ([int] and [unsigned int] are 32 bits
      wide, [long] and [unsigned long] 64 bits wide).
    - The header is read as C compiled by GCC (version 2 or later), the
      branch of [DEBUG_CHECK_LEVEL] that is well formed. *)

From Stdlib Require Import ZArith List String Ascii Bool Lia.
From Stdlib Require Import Decimal DecimalString DecimalPos DecimalN.
Import ListNotations.

Local Open Scope string_scope.
Local Open Scope list_scope.
Local Open Scope Z_scope.

(** ** C integers *)

Inductive ctype : Type :=
| Tint      (* int, and every narrower type after integer promotion *)
| Tuint     (* unsigned int *)
| Tlong     (* long *)
| Tulong.   (* unsigned long *)

Definition is_signed (t : ctype) : bool :=
  match t with
  | Tint | Tlong => true
  | Tuint | Tulong => false
  end.

Definition width (t : ctype) : Z :=
  match t with
  | Tint | Tuint => 32
  | Tlong | Tulong => 64
  end.

(** Conversion of a mathematical integer to type [t]: reduction modulo
    [2^width], into the signed or the unsigned interval. *)
Definition convert (t : ctype) (z : Z) : Z :=
  if is_signed t
  then (z + 2 ^ (width t - 1)) mod 2 ^ width t - 2 ^ (width t - 1)
  else z mod 2 ^ width t.

Definition min_of (t : ctype) : Z :=
  if is_signed t then - 2 ^ (width t - 1) else 0.

Definition max_of (t : ctype) : Z :=
  if is_signed t then 2 ^ (width t - 1) - 1 else 2 ^ width t - 1.

Record cint : Type := Cint { type_of : ctype; value_of : Z }.

(** A [cint] is a C value when its number lies in the range of its type. *)
Definition representable (c : cint) : Prop :=
  min_of (type_of c) <= value_of c <= max_of (type_of c).

(** The usual arithmetic conversions on promoted integer operands. *)
Definition usual_arithmetic (a b : ctype) : ctype :=
  match a, b with
  | Tulong, _ | _, Tulong => Tulong
  | Tlong, _ | _, Tlong => Tlong
  | Tuint, _ | _, Tuint => Tuint
  | Tint, Tint => Tint
  end.

(** [a <= b] and [a > b] as C evaluates them. *)
Definition c_le (a b : cint) : bool :=
  let t := usual_arithmetic (type_of a) (type_of b) in
  convert t (value_of a) <=? convert t (value_of b).

Definition c_gt (a b : cint) : bool :=
  let t := usual_arithmetic (type_of a) (type_of b) in
  convert t (value_of a) >? convert t (value_of b).

(** ** Streams and the trace of stdio requests *)

Inductive stream : Type :=
| stderr
| stdout
| opened (fd : N).

(** A [FILE *]; [None] is the null pointer. *)
Definition FILE_ptr : Type := option stream.
Definition NULL : FILE_ptr := None.

Definition stream_eqb (a b : stream) : bool :=
  match a, b with
  | stderr, stderr => true
  | stdout, stdout => true
  | opened m, opened n => N.eqb m n
  | _, _ => false
  end.

Inductive event : Type :=
| Wrote (f : stream) (bytes : string)
| Flushed (f : stream)
| FlushedAll.

(** The bytes that a trace sends to stream [f], in order. *)
Fixpoint output_on (f : stream) (t : list event) : string :=
  match t with
  | [] => ""
  | Wrote g bytes :: t' =>
      if stream_eqb f g then (bytes ++ output_on f t')%string
      else output_on f t'
  | _ :: t' => output_on f t'
  end.

(** ** The process state *)

Record world (U : Type) : Type := World {
  debug_stream : FILE_ptr;   (* FILE *debug_stream *)
  debug_level : Z;           (* unsigned int debug_level *)
  caller : U;                (* everything else the program owns *)
  trace : list event
}.

Arguments World {U} _ _ _ _.
Arguments debug_stream {U} _.
Arguments debug_level {U} _.
Arguments caller {U} _.
Arguments trace {U} _.

(** [debug_level] is an [unsigned int]. *)
Definition well_typed {U} (w : world U) : Prop :=
  0 <= debug_level w <= max_of Tuint.

(** The globals as the header initialises them.  [DEBUG_LEVEL] is the
    build-time override, when the build defines it. *)
Definition initial_debug_stream : FILE_ptr := NULL.

Definition initial_debug_level (DEBUG_LEVEL : option Z) : Z :=
  match DEBUG_LEVEL with
  | Some d => convert Tuint d
  | None => convert Tuint 1
  end.

Definition initial_world {U} (DEBUG_LEVEL : option Z) (u : U) : world U :=
  World initial_debug_stream (initial_debug_level DEBUG_LEVEL) u [].

Definition record {U} (e : event) (w : world U) : world U :=
  World (debug_stream w) (debug_level w) (caller w) (trace w ++ [e]).

(** ** Statements and expressions *)

(** A statement has an outcome in the model, or the model does not follow
    it ([None]). *)
Definition M (U A : Type) : Type := world U -> option (A * world U).

Definition ret {U A} (a : A) : M U A := fun w => Some (a, w).

Definition bind {U A B} (m : M U A) (k : A -> M U B) : M U B :=
  fun w =>
    match m w with
    | Some (a, w') => k a w'
    | None => None
    end.

Declare Scope stmt_scope.
Delimit Scope stmt_scope with stmt.
Notation "x <- m ;; k" := (bind m (fun x => k))
  (at level 100, m at next level, right associativity) : stmt_scope.
Notation "m ;; k" := (bind m (fun _ => k))
  (at level 100, right associativity) : stmt_scope.

(** An argument expression of the caller: it yields a value and may change
    anything in the process. *)
Definition expr (U A : Type) : Type := world U -> A * world U.

Definition eval {U A} (e : expr U A) : M U A := fun w => Some (e w).

(** A constant, and the two globals read as expressions. *)
Definition lit {U A} (a : A) : expr U A := fun w => (a, w).
Definition var_debug_stream {U} : expr U FILE_ptr := fun w => (debug_stream w, w).
Definition var_debug_level {U} : expr U Z := fun w => (debug_level w, w).

(** Arguments of a call, evaluated from left to right. *)
Fixpoint eval_all {U A} (es : list (expr U A)) : M U (list A) :=
  match es with
  | [] => ret []
  | e :: es' =>
      (a <- eval e ;; r <- eval_all es' ;; ret (a :: r))%stmt
  end.

(** ** stdio *)

Inductive carg : Type :=
| AStr (s : string)    (* char * *)
| AInt (z : Z).        (* int *)

Definition decimal (z : Z) : string := NilZero.string_of_int (Z.to_int z).

(** The text [fprintf] produces for a format and its arguments. *)
Fixpoint format (fmt : string) (args : list carg) : option string :=
  match fmt with
  | EmptyString => Some EmptyString
  | String c rest =>
      if (c =? "%")%char then
        match rest with
        | EmptyString => None
        | String d rest' =>
            if (d =? "%")%char then
              option_map (String "%") (format rest' args)
            else if (d =? "s")%char then
              match args with
              | AStr s :: args' => option_map (append s) (format rest' args')
              | _ => None
              end
            else if (d =? "d")%char then
              match args with
              | AInt z :: args' =>
                  option_map (append (decimal z)) (format rest' args')
              | _ => None
              end
            else None
        end
      else option_map (String c) (format rest args)
  end.

Definition fprintf {U} (f : FILE_ptr) (fmt : string) (args : list carg)
  : M U unit :=
  fun w =>
    match f, format fmt args with
    | Some s, Some bytes => Some (tt, record (Wrote s bytes) w)
    | _, _ => None
    end.

(** [fflush (NULL)] flushes every open output stream. *)
Definition fflush {U} (f : FILE_ptr) : M U unit :=
  fun w =>
    match f with
    | Some s => Some (tt, record (Flushed s) w)
    | None => Some (tt, record FlushedAll w)
    end.

(** ** The call site *)

(** What [__FILE__], [__LINE__] and [FUNCTION] stand for where a macro is
    expanded. *)
Record call_site : Type := Site {
  __FILE__ : string;
  __LINE__ : N;
  FUNCTION : string
}.

(** ** The header with [DEBUG] defined *)

Module Enabled.

Definition DEBUG_DEFAULT_STREAM : FILE_ptr := Some stderr.

(** Defined by the header, and mentioned by none of its macros. *)
Definition DEBUG_MAX_LENGTH (override : option N) : N :=
  match override with
  | Some n => n
  | None => 60%N
  end.

(** Stringification of the line number token. *)
Definition debug_quote (x : N) : string := NilZero.string_of_uint (N.to_uint x).

Definition LINE_LOCATION (here : call_site) : string :=
  (__FILE__ here ++ " " ++ debug_quote (__LINE__ here) ++ " ")%string.

Definition DEBUG_CHECK_FILE (file : FILE_ptr) : FILE_ptr :=
  match file with
  | Some f => Some f
  | None => DEBUG_DEFAULT_STREAM
  end.

(** The condition of [DEBUG_CHECK_LEVEL]; [DEBUG_LEVEL_TEMP] has the type of
    the level expression. *)
Definition DEBUG_CHECK_LEVEL (DEBUG_LEVEL_TEMP : cint) (debug_level : Z) : bool :=
  c_le DEBUG_LEVEL_TEMP (Cint Tuint debug_level)
  && c_gt DEBUG_LEVEL_TEMP (Cint Tint 0).

Definition fdebugl {U} (here : call_site)
    (level : expr U cint) (file : expr U FILE_ptr) (string : expr U string)
  : M U unit :=
  (DEBUG_LEVEL_TEMP <- eval level ;;
   threshold <- eval var_debug_level ;;
   if DEBUG_CHECK_LEVEL DEBUG_LEVEL_TEMP threshold then
     DEBUG_FILE <- eval file ;;
     let DEBUG_FILE := DEBUG_CHECK_FILE DEBUG_FILE in
     s <- eval string ;;
     fprintf (DEBUG_CHECK_FILE DEBUG_FILE)
             (LINE_LOCATION here ++ "%s: %s" ++ String "010" "")%string
             [AStr (FUNCTION here); AStr s] ;;
     fflush DEBUG_FILE
   else ret tt)%stmt.

Definition debug {U} (here : call_site) (string : expr U string) : M U unit :=
  fdebugl here (lit (Cint Tint 1)) var_debug_stream string.

Definition fdebug {U} (here : call_site)
    (file : expr U FILE_ptr) (string : expr U string) : M U unit :=
  fdebugl here (lit (Cint Tint 1)) file string.

Definition debugl {U} (here : call_site)
    (level : expr U cint) (string : expr U string) : M U unit :=
  fdebugl here level var_debug_stream string.

(** The variable arguments are a format followed by its arguments. *)
Definition fdebuglf {U} (here : call_site)
    (level : expr U cint) (file : expr U FILE_ptr)
    (fmt : expr U string) (args : list (expr U carg)) : M U unit :=
  (DEBUG_LEVEL_TEMP <- eval level ;;
   threshold <- eval var_debug_level ;;
   if DEBUG_CHECK_LEVEL DEBUG_LEVEL_TEMP threshold then
     DEBUG_FILE <- eval file ;;
     let DEBUG_FILE := DEBUG_CHECK_FILE DEBUG_FILE in
     fprintf DEBUG_FILE (LINE_LOCATION here ++ "%s: ")%string
             [AStr (FUNCTION here)] ;;
     f <- eval fmt ;;
     a <- eval_all args ;;
     fprintf DEBUG_FILE f a ;;
     fprintf DEBUG_FILE (String "010" "") [] ;;
     fflush DEBUG_FILE
   else ret tt)%stmt.

Definition debugf {U} (here : call_site)
    (fmt : expr U string) (args : list (expr U carg)) : M U unit :=
  fdebuglf here (lit (Cint Tint 1)) var_debug_stream fmt args.

Definition fdebugf {U} (here : call_site) (file : expr U FILE_ptr)
    (fmt : expr U string) (args : list (expr U carg)) : M U unit :=
  fdebuglf here (lit (Cint Tint 1)) file fmt args.

Definition debuglf {U} (here : call_site) (level : expr U cint)
    (fmt : expr U string) (args : list (expr U carg)) : M U unit :=
  fdebuglf here level var_debug_stream fmt args.

End Enabled.

(** ** The header with [DEBUG] undefined *)

(** Every macro expands to [do{}while(0)]: the text of the arguments is
    dropped, whatever their number and types.  ([fdebugl] has no definition
    in this branch.) *)
Module Disabled.

Definition debug {U A} (here : call_site) (string : expr U A) : M U unit :=
  ret tt.

Definition debugl {U A B} (here : call_site)
    (level : expr U A) (string : expr U B) : M U unit :=
  ret tt.

Definition debugf {U A} (here : call_site) (va_args : list (expr U A))
  : M U unit :=
  ret tt.

Definition fdebug {U A B} (here : call_site)
    (file : expr U A) (string : expr U B) : M U unit :=
  ret tt.

Definition fdebugf {U A B} (here : call_site)
    (file : expr U A) (va_args : list (expr U B)) : M U unit :=
  ret tt.

Definition debuglf {U A} (here : call_site) (va_args : list (expr U A))
  : M U unit :=
  ret tt.

Definition fdebuglf {U A} (here : call_site) (va_args : list (expr U A))
  : M U unit :=
  ret tt.

End Disabled.

(** ** Vocabulary of the specification *)

(** A string without the character [%]: as a format it stands for itself. *)
Fixpoint plain (s : string) : bool :=
  match s with
  | EmptyString => true
  | String c rest => negb (c =? "%")%char && plain rest
  end.

(** The line the specification prescribes:
    [<file> <line> <function>: <message>\n]. *)
Definition diagnostic_line (here : call_site) (message : string) : string :=
  (__FILE__ here ++ " " ++ Enabled.debug_quote (__LINE__ here) ++ " "
   ++ FUNCTION here ++ ": " ++ message ++ String "010" "")%string.

(** The level gate of the specification. *)
Definition shouldEmit (level threshold : Z) : Prop :=
  0 < level <= threshold.

(** Destination resolution as the specification words it: the explicit
    destination when there is one, otherwise the process-wide default
    [debug_stream], and the standard error stream when that is unset. *)
Definition resolve_as_specified {U} (explicit : FILE_ptr) (w : world U)
  : FILE_ptr :=
  match explicit with
  | Some f => Some f
  | None =>
      match debug_stream w with
      | Some d => Some d
      | None => Some stderr
      end
  end.

(** The stream a [FILE *] denotes once [DEBUG_CHECK_FILE] has looked at it. *)
Definition destination (file : FILE_ptr) : stream :=
  match file with
  | Some f => f
  | None => stderr
  end.

(** A statement emits when it completes and the bytes sent to some stream
    have changed; it is silent when it completes and leaves the process as
    it found it. *)
Definition emits {U} (m : M U unit) (w : world U) : Prop :=
  exists w' d,
    m w = Some (tt, w') /\ output_on d (trace w') <> output_on d (trace w).

Definition silent {U} (m : M U unit) (w : world U) : Prop :=
  m w = Some (tt, w).

(** The bytes a statement leaves on stream [d], when it completes. *)
Definition bytes_on {U} (d : stream) (m : M U unit) (w : world U)
  : option string :=
  option_map (fun r => output_on d (trace (snd r))) (m w).

(** What follows the file name in the two formats that start with
    [LINE_LOCATION]; [t] is the line number and its space. *)
Definition literal_tail (t : string) : string :=
  String " " (t ++ "%s: %s" ++ String "010" "").

Definition prefix_tail (t : string) : string :=
  String " " (t ++ "%s: ").

(** An expression that leaves the two globals of the header alone. *)
Definition keeps_config {U A} (e : expr U A) : Prop :=
  forall w,
    debug_level (snd (e w)) = debug_level w
    /\ debug_stream (snd (e w)) = debug_stream w.

(** A statement that leaves them alone whenever it completes. *)
Definition preserves_config {U} (m : M U unit) : Prop :=
  forall w w',
    m w = Some (tt, w') ->
    debug_level w' = debug_level w /\ debug_stream w' = debug_stream w.

(** ** Sample programs *)

(** A call site, a process whose own state is one counter, and an argument
    expression with a side effect: [(counter++, "tick")]. *)
Definition sample_site : call_site := Site "main" 42 "run".

Definition sample_world (stream : FILE_ptr) (threshold counter : Z) : world Z :=
  World stream threshold counter [].

Definition counting {A} (a : A) : expr Z A :=
  fun w => (a, World (debug_stream w) (debug_level w) (caller w + 1) (trace w)).

(** An argument expression that prints on the way: a call of a function
    that writes [bytes] to [d] and returns [a]. *)
Definition printing {U A} (d : stream) (bytes : string) (a : A) : expr U A :=
  fun w => (a, record (Wrote d bytes) w).

(** An argument of which the disabled macros see the text only: its value
    is of no interest, its effect stays. *)
Definition dropped {U A} (e : expr U A) : expr U unit :=
  fun w => (tt, snd (e w)).

(** ** The C++ macro *)

(** [std::cerr] is the stream [stderr], [std::cout] the stream [stdout].
    [std::cerr] is tied to [std::cout] and has [unitbuf] set. *)
Definition tie (os : stream) : option stream :=
  match os with
  | stderr => Some stdout
  | _ => None
  end.

Definition unitbuf (os : stream) : bool :=
  match os with
  | stderr => true
  | _ => false
  end.

(** [os << bytes]: the tied stream is flushed first, the bytes are written,
    and a stream with [unitbuf] is flushed after.  [os.flush ()], and
    [std::endl], which inserts a newline and flushes. *)
Definition inserted {U} (os : stream) (bytes : string) : M U unit :=
  fun w =>
    let w1 := match tie os with
              | Some tied => record (Flushed tied) w
              | None => w
              end in
    let w2 := record (Wrote os bytes) w1 in
    Some (tt, if unitbuf os then record (Flushed os) w2 else w2).

Definition flushed {U} (os : stream) : M U unit :=
  fun w => Some (tt, record (Flushed os) w).

Definition endl {U} (os : stream) : M U unit :=
  (inserted os (String "010" "") ;; flushed os)%stmt.

(** [debug_cpp], defined when [DEBUG] and [__cplusplus] are.  The operands
    of the chain of [<<] are taken from left to right (the order C++17
    fixes). *)
Module Cplusplus.

Definition debug_cpp {U} (here : call_site) (string : expr U string)
  : M U unit :=
  (inserted stderr (Enabled.LINE_LOCATION here) ;;
   inserted stderr " " ;;
   inserted stderr (FUNCTION here) ;;
   inserted stderr ": " ;;
   s <- eval string ;;
   inserted stderr s ;;
   endl stderr ;;
   flushed stdout)%stmt.

End Cplusplus.

(** ** The choice of [FUNCTION] *)

(** What the preprocessor knows of the compiler: whether [__cplusplus] is
    defined, and [__GNUC__] with [__GNUC_MINOR__] when GCC defines them. *)
Record toolchain : Type := Toolchain {
  cplusplus : bool;
  GNUC : option (Z * Z)
}.

Inductive function_name : Type :=
| PRETTY_FUNCTION      (* __PRETTY_FUNCTION__ *)
| func                 (* __func__ *)
| empty_quote.         (* debug_quote( ), the empty string literal *)

(** [(__GNUC__ >= 3) || (__GNUC__ == 2 && __GNUC_MINOR__ >= minor)]. *)
Definition version_test (least_minor : Z) (version : Z * Z) : bool :=
  let (major, minor) := version in
  (major >=? 3) || ((major =? 2) && (minor >=? least_minor)).

(** The conditional that defines [FUNCTION].  In the C++ branch the
    directive is [#ifdef __GNUC__ && ...]: [#ifdef] looks at the
    identifier only, the version test after it is not evaluated. *)
Definition FUNCTION_choice (tc : toolchain) : function_name :=
  if cplusplus tc then
    match GNUC tc with
    | Some _ => PRETTY_FUNCTION
    | None => func
    end
  else
    match GNUC tc with
    | Some version =>
        if version_test 4 version then PRETTY_FUNCTION else empty_quote
    | None => empty_quote
    end.

(** The string [FUNCTION] stands for in a function whose two names are
    given. *)
Definition FUNCTION_text (tc : toolchain) (pretty_function func_name : string)
  : string :=
  match FUNCTION_choice tc with
  | PRETTY_FUNCTION => pretty_function
  | func => func_name
  | empty_quote => ""%string
  end.

(** [#if defined __GNUC__ && __GNUC__ >= 2]: the branch of
    [DEBUG_CHECK_LEVEL] modelled above is the one taken. *)
Definition DEBUG_CHECK_LEVEL_is_typeof (tc : toolchain) : bool :=
  match GNUC tc with
  | Some (major, _) => major >=? 2
  | None => false
  end.

(** * Properties *)

(** ** Integers and the level gate *)

Lemma convert_representable (c : cint) :
  representable c -> convert (type_of c) (value_of c) = value_of c.
Proof.
  destruct c as [t z]; unfold representable, convert, min_of, max_of; simpl.
  destruct t; simpl; intros H.
  - rewrite Z.mod_small by lia. lia.
  - apply Z.mod_small. lia.
  - rewrite Z.mod_small by lia. lia.
  - apply Z.mod_small. lia.
Qed.

Lemma DEBUG_CHECK_LEVEL_spec (lv : cint) (threshold : Z) :
  representable lv ->
  0 <= threshold <= max_of Tuint ->
  Enabled.DEBUG_CHECK_LEVEL lv threshold = true
  <-> shouldEmit (value_of lv) threshold.
Proof.
  destruct lv as [t z].
  unfold representable, Enabled.DEBUG_CHECK_LEVEL, c_le, c_gt, shouldEmit,
    convert, min_of, max_of; simpl.
  intros Hz Ht.
  rewrite andb_true_iff, Z.leb_le, Z.gtb_gt.
  destruct t; simpl in *.
  - (* int: the comparison with the threshold is unsigned, the one with
       0 is signed *)
    change (0 + 2147483648) with 2147483648.
    change (2147483648 mod 4294967296) with 2147483648.
    rewrite (Z.mod_small (z + 2147483648)), (Z.mod_small threshold) by lia.
    destruct (Z_lt_le_dec z 0) as [Hneg | Hpos].
    + lia.
    + rewrite (Z.mod_small z) by lia. lia.
  - rewrite !Z.mod_small by lia. lia.
  - rewrite !Z.mod_small by lia. lia.
  - rewrite !Z.mod_small by lia. lia.
Qed.

Lemma DEBUG_CHECK_LEVEL_false (lv : cint) (threshold : Z) :
  representable lv ->
  0 <= threshold <= max_of Tuint ->
  ~ shouldEmit (value_of lv) threshold ->
  Enabled.DEBUG_CHECK_LEVEL lv threshold = false.
Proof.
  intros Hl Ht Hn.
  destruct (Enabled.DEBUG_CHECK_LEVEL lv threshold) eqn:E; [| reflexivity].
  apply DEBUG_CHECK_LEVEL_spec in E; [contradiction | assumption | assumption].
Qed.

(** ** Strings and formats *)

Lemma append_assoc (a b c : string) :
  ((a ++ b) ++ c)%string = (a ++ (b ++ c))%string.
Proof.
  induction a as [| x a IH]; simpl; [reflexivity | now rewrite IH].
Qed.

Lemma append_empty_r (a : string) : (a ++ "")%string = a.
Proof.
  induction a as [| x a IH]; simpl; [reflexivity | now rewrite IH].
Qed.

Lemma append_same_l (a b : string) : (a ++ b)%string = a -> b = ""%string.
Proof.
  induction a as [| x a IH]; simpl; intros H; [exact H |].
  injection H as H. auto.
Qed.

Lemma append_empty (a b : string) : (a ++ b)%string = ""%string -> b = ""%string.
Proof.
  destruct a; simpl; [auto | discriminate].
Qed.

Lemma plain_append (a b : string) :
  plain (a ++ b) = plain a && plain b.
Proof.
  induction a as [| x a IH]; simpl; [reflexivity |].
  now rewrite IH, andb_assoc.
Qed.

Lemma plain_digits (d : uint) : plain (NilEmpty.string_of_uint d) = true.
Proof.
  induction d; simpl; auto.
Qed.

Lemma plain_debug_quote (n : N) : plain (Enabled.debug_quote n) = true.
Proof.
  unfold Enabled.debug_quote, NilZero.string_of_uint.
  destruct (N.to_uint n) eqn:E; try reflexivity;
    rewrite <- E at 1; rewrite <- (plain_digits (N.to_uint n)); now rewrite E.
Qed.

Lemma plain_LINE_LOCATION (here : call_site) :
  plain (__FILE__ here) = true -> plain (Enabled.LINE_LOCATION here) = true.
Proof.
  intros H. unfold Enabled.LINE_LOCATION.
  rewrite !plain_append, H, plain_debug_quote. reflexivity.
Qed.

(** A plain stretch of a format is copied to the output. *)
Lemma format_plain_prefix (a b : string) (args : list carg) :
  plain a = true ->
  format (a ++ b) args = option_map (append a) (format b args).
Proof.
  induction a as [| x a IH]; simpl.
  - intros _. now destruct (format b args).
  - intros H. apply andb_true_iff in H as [Hx Ha].
    apply negb_true_iff in Hx. rewrite Hx, (IH Ha).
    now destruct (format b args).
Qed.

Lemma format_plain (a : string) (args : list carg) :
  plain a = true -> format a args = Some a.
Proof.
  intros H. rewrite <- (append_empty_r a) at 1.
  rewrite (format_plain_prefix _ _ _ H). simpl. now rewrite append_empty_r.
Qed.

Lemma format_literal_line (here : call_site) (s : string) :
  plain (__FILE__ here) = true ->
  format (Enabled.LINE_LOCATION here ++ "%s: %s" ++ String "010" "")
         [AStr (FUNCTION here); AStr s]
  = Some (diagnostic_line here s).
Proof.
  intros H.
  rewrite (format_plain_prefix _ _ _ (plain_LINE_LOCATION here H)).
  simpl. unfold diagnostic_line, Enabled.LINE_LOCATION.
  now rewrite !append_assoc.
Qed.

Lemma format_location_prefix (here : call_site) :
  plain (__FILE__ here) = true ->
  format (Enabled.LINE_LOCATION here ++ "%s: ") [AStr (FUNCTION here)]
  = Some (Enabled.LINE_LOCATION here ++ FUNCTION here ++ ": ")%string.
Proof.
  intros H.
  rewrite (format_plain_prefix _ _ _ (plain_LINE_LOCATION here H)).
  reflexivity.
Qed.

(** ** What one call does *)

Lemma eval_all_lit {U A} (vs : list A) (w : world U) :
  eval_all (map lit vs) w = Some (vs, w).
Proof.
  induction vs as [| v vs IH]; simpl; [reflexivity |].
  unfold bind, eval, lit, ret. simpl.
  fold (@lit U A). now rewrite IH.
Qed.

(** [fdebugl] step by step: the level, the gate, and only then the
    destination, the message, one [fprintf] and the [fflush]. *)
Lemma fdebugl_run {U} (here : call_site) (level : expr U cint)
    (file : expr U FILE_ptr) (str : expr U string) (w : world U) :
  Enabled.fdebugl here level file str w =
  let (lv, w1) := level w in
  if Enabled.DEBUG_CHECK_LEVEL lv (debug_level w1) then
    let (f, w2) := file w1 in
    let (s, w3) := str w2 in
    match format (Enabled.LINE_LOCATION here ++ "%s: %s" ++ String "010" "")
                 [AStr (FUNCTION here); AStr s] with
    | Some bytes =>
        Some (tt, record (Flushed (destination f))
                    (record (Wrote (destination f) bytes) w3))
    | None => None
    end
  else Some (tt, w1).
Proof.
  unfold Enabled.fdebugl, bind, eval, ret, var_debug_level, fprintf, fflush.
  destruct (level w) as [lv w1].
  destruct (Enabled.DEBUG_CHECK_LEVEL lv (debug_level w1)); [| reflexivity].
  destruct (file w1) as [f w2]. destruct (str w2) as [s w3].
  destruct f as [f |]; simpl;
    now destruct (format _ _).
Qed.

(** [fdebuglf] step by step, for a format and arguments that are values. *)
Lemma fdebuglf_run {U} (here : call_site) (level : expr U cint)
    (file : expr U FILE_ptr) (fmt : string) (args : list carg) (w : world U) :
  Enabled.fdebuglf here level file (lit fmt) (map lit args) w =
  let (lv, w1) := level w in
  if Enabled.DEBUG_CHECK_LEVEL lv (debug_level w1) then
    let (f, w2) := file w1 in
    match format (Enabled.LINE_LOCATION here ++ "%s: ") [AStr (FUNCTION here)],
          format fmt args with
    | Some prefix, Some message =>
        Some (tt, record (Flushed (destination f))
                    (record (Wrote (destination f) (String "010" ""))
                       (record (Wrote (destination f) message)
                          (record (Wrote (destination f) prefix) w2))))
    | _, _ => None
    end
  else Some (tt, w1).
Proof.
  unfold Enabled.fdebuglf, bind, eval, ret, var_debug_level, fprintf, fflush.
  destruct (level w) as [lv w1].
  destruct (Enabled.DEBUG_CHECK_LEVEL lv (debug_level w1)); [| reflexivity].
  destruct (file w1) as [f w2].
  destruct f as [f |];
    cbn [Enabled.DEBUG_CHECK_FILE Enabled.DEBUG_DEFAULT_STREAM destination];
    (destruct (format _ [AStr (FUNCTION here)]) as [prefix |]; [| reflexivity]);
    cbv beta iota; unfold lit at 1; rewrite eval_all_lit;
    now destruct (format fmt args).
Qed.

Lemma stream_eqb_refl (d : stream) : stream_eqb d d = true.
Proof.
  destruct d; simpl; auto using N.eqb_refl.
Qed.

Lemma output_on_app (d : stream) (t1 t2 : list event) :
  output_on d (t1 ++ t2) = (output_on d t1 ++ output_on d t2)%string.
Proof.
  induction t1 as [| e t1 IH]; simpl; [reflexivity |].
  destruct e as [g bytes | g |]; auto.
  destruct (stream_eqb d g); auto.
  now rewrite IH, append_assoc.
Qed.

Lemma output_after_write {U} (d : stream) (bytes : string) (w : world U) :
  output_on d (trace (record (Wrote d bytes) w))
  = (output_on d (trace w) ++ bytes)%string.
Proof.
  simpl. rewrite output_on_app. simpl.
  now rewrite stream_eqb_refl, append_empty_r.
Qed.

Lemma output_after_flush {U} (d g : stream) (w : world U) :
  output_on d (trace (record (Flushed g) w)) = output_on d (trace w).
Proof.
  simpl. rewrite output_on_app. simpl. now rewrite append_empty_r.
Qed.

Lemma diagnostic_line_not_empty (here : call_site) (s : string) :
  diagnostic_line here s <> ""%string.
Proof.
  unfold diagnostic_line. destruct (__FILE__ here); discriminate.
Qed.

(** A call whose level fails the gate stops right after the level has been
    evaluated. *)
Lemma fdebugl_blocked {U} (here : call_site) (level : expr U cint)
    (file : expr U FILE_ptr) (str : expr U string) (w : world U) :
  Enabled.DEBUG_CHECK_LEVEL (fst (level w)) (debug_level (snd (level w))) = false ->
  Enabled.fdebugl here level file str w = Some (tt, snd (level w)).
Proof.
  intros H. rewrite fdebugl_run.
  destruct (level w) as [lv w1]; simpl in *. now rewrite H.
Qed.

Lemma fdebuglf_blocked {U} (here : call_site) (level : expr U cint)
    (file : expr U FILE_ptr) (fmt : expr U string) (args : list (expr U carg))
    (w : world U) :
  Enabled.DEBUG_CHECK_LEVEL (fst (level w)) (debug_level (snd (level w))) = false ->
  Enabled.fdebuglf here level file fmt args w = Some (tt, snd (level w)).
Proof.
  intros H.
  unfold Enabled.fdebuglf, bind, eval, ret, var_debug_level.
  destruct (level w) as [lv w1]; simpl in *. now rewrite H.
Qed.

(** A call whose level passes the gate, made from a file with a plain
    name: one line to the resolved destination, then its flush. *)
Lemma fdebugl_passed {U} (here : call_site) (level : expr U cint)
    (file : expr U FILE_ptr) (str : expr U string) (w : world U) :
  plain (__FILE__ here) = true ->
  Enabled.DEBUG_CHECK_LEVEL (fst (level w)) (debug_level (snd (level w))) = true ->
  Enabled.fdebugl here level file str w =
  let w1 := snd (level w) in
  let d := destination (fst (file w1)) in
  let w2 := snd (file w1) in
  Some (tt, record (Flushed d)
              (record (Wrote d (diagnostic_line here (fst (str w2))))
                 (snd (str w2)))).
Proof.
  intros Hp H. rewrite fdebugl_run.
  destruct (level w) as [lv w1]; simpl in *. rewrite H.
  destruct (file w1) as [f w2]; simpl. destruct (str w2) as [s w3]; simpl.
  change (String "%" (String "s" (String ":" (String " "
            (String "%" (String "s" (String "010" "")))))))
    with ("%s: %s" ++ String "010" "")%string.
  now rewrite (format_literal_line here s Hp).
Qed.

Lemma fdebuglf_passed {U} (here : call_site) (level : expr U cint)
    (file : expr U FILE_ptr) (fmt message : string) (args : list carg)
    (w : world U) :
  plain (__FILE__ here) = true ->
  format fmt args = Some message ->
  Enabled.DEBUG_CHECK_LEVEL (fst (level w)) (debug_level (snd (level w))) = true ->
  Enabled.fdebuglf here level file (lit fmt) (map lit args) w =
  let w1 := snd (level w) in
  let d := destination (fst (file w1)) in
  Some (tt, record (Flushed d)
              (record (Wrote d (String "010" ""))
                 (record (Wrote d message)
                    (record (Wrote d (Enabled.LINE_LOCATION here
                                      ++ FUNCTION here ++ ": ")%string)
                       (snd (file w1)))))).
Proof.
  intros Hp Hf H. rewrite fdebuglf_run.
  destruct (level w) as [lv w1]; simpl in *. rewrite H.
  destruct (file w1) as [f w2]; simpl.
  now rewrite (format_location_prefix here Hp), Hf.
Qed.

(** ** The call surface with diagnostics compiled out *)

(** C1. With [DEBUG] undefined, each of [debug], [debugl], [debugf],
    [fdebug], [fdebugf], [debuglf] and [fdebuglf] completes and leaves the
    whole process state as it was, whatever its argument expressions would
    do if they were evaluated: none of them is evaluated. *)
Theorem disabled_entry_points_do_nothing {U A B C : Type} (here : call_site)
    (level : expr U A) (file : expr U B) (string : expr U C)
    (va_args : list (expr U C)) (w : world U) :
  Disabled.debug here string w = Some (tt, w)
  /\ Disabled.debugl here level string w = Some (tt, w)
  /\ Disabled.debugf here va_args w = Some (tt, w)
  /\ Disabled.fdebug here file string w = Some (tt, w)
  /\ Disabled.fdebugf here file va_args w = Some (tt, w)
  /\ Disabled.debuglf here va_args w = Some (tt, w)
  /\ Disabled.fdebuglf here va_args w = Some (tt, w).
Proof.
  repeat split.
Qed.

(** The counter of [(counter++, "tick")] is stepped by the enabled macro
    and not by the disabled one. *)
Example counter_left_alone_when_disabled :
  let w := sample_world NULL 1 0 in
  option_map (fun r => caller (snd r))
    (Disabled.debug sample_site (counting "tick"%string) w) = Some 0
  /\ option_map (fun r => caller (snd r))
       (Enabled.debug sample_site (counting "tick"%string) w) = Some 1.
Proof.
  split; reflexivity.
Qed.

(** ** The level gate *)

Lemma emits_after_line {U} (m : M U unit) (w w0 : world U) (d : stream)
    (bytes : string) :
  bytes <> ""%string ->
  trace w0 = trace w ->
  m w = Some (tt, record (Flushed d) (record (Wrote d bytes) w0)) ->
  emits m w.
Proof.
  intros Hb Ht Hm. exists (record (Flushed d) (record (Wrote d bytes) w0)), d.
  split; [exact Hm |].
  rewrite output_after_flush, output_after_write, Ht.
  intros E. apply append_same_l in E. contradiction.
Qed.

Lemma silent_not_emits {U} (m : M U unit) (w : world U) :
  silent m w -> ~ emits m w.
Proof.
  unfold silent, emits. intros Hs (w' & d & Hm & Hd).
  rewrite Hs in Hm. assert (E : w = w') by congruence.
  subst w'. now apply Hd.
Qed.

(** For a call whose level and destination arguments have no side effect,
    emission is decided by the gate alone. *)
Lemma fdebugl_emits_iff {U} (here : call_site) (lv : cint)
    (file : expr U FILE_ptr) (s : string) (w : world U) :
  plain (__FILE__ here) = true ->
  snd (file w) = w ->
  (Enabled.DEBUG_CHECK_LEVEL lv (debug_level w) = true ->
   emits (Enabled.fdebugl here (lit lv) file (lit s)) w)
  /\ (Enabled.DEBUG_CHECK_LEVEL lv (debug_level w) = false ->
      silent (Enabled.fdebugl here (lit lv) file (lit s)) w).
Proof.
  intros Hp Hf. split; intros H.
  - eapply emits_after_line;
      [apply (diagnostic_line_not_empty here s) | |
       apply (fdebugl_passed here (lit lv) file (lit s) w Hp H)].
    simpl. now rewrite Hf.
  - apply (fdebugl_blocked here (lit lv) file (lit s) w H).
Qed.

Lemma fdebuglf_emits_iff {U} (here : call_site) (lv : cint)
    (file : expr U FILE_ptr) (fmt : string) (args : list carg) (w : world U) :
  plain (__FILE__ here) = true ->
  format fmt args <> None ->
  snd (file w) = w ->
  (Enabled.DEBUG_CHECK_LEVEL lv (debug_level w) = true ->
   emits (Enabled.fdebuglf here (lit lv) file (lit fmt) (map lit args)) w)
  /\ (Enabled.DEBUG_CHECK_LEVEL lv (debug_level w) = false ->
      silent (Enabled.fdebuglf here (lit lv) file (lit fmt) (map lit args)) w).
Proof.
  intros Hp Hfmt Hf. split; intros H.
  - destruct (format fmt args) as [message |] eqn:E; [| contradiction].
    pose proof (fdebuglf_passed here (lit lv) file fmt message args w Hp E H)
      as Hrun.
    cbv zeta in Hrun. simpl fst in Hrun. simpl snd in Hrun.
    rewrite Hf in Hrun.
    eexists _, (destination (fst (file w))). split; [exact Hrun |].
    rewrite output_after_flush, !output_after_write.
    rewrite 2!(append_assoc (output_on _ (trace w))).
    intros Heq. apply append_same_l, append_empty in Heq. discriminate.
  - apply (fdebuglf_blocked here (lit lv) file (lit fmt) (map lit args) w H).
Qed.

Lemma decided_by_gate {U} (m : M U unit) (w : world U) (lv : cint) :
  representable lv ->
  well_typed w ->
  (Enabled.DEBUG_CHECK_LEVEL lv (debug_level w) = true -> emits m w)
  /\ (Enabled.DEBUG_CHECK_LEVEL lv (debug_level w) = false -> silent m w) ->
  (emits m w <-> shouldEmit (value_of lv) (debug_level w))
  /\ (~ shouldEmit (value_of lv) (debug_level w) -> silent m w).
Proof.
  intros Hl Hw [Hyes Hno].
  pose proof (DEBUG_CHECK_LEVEL_spec lv (debug_level w) Hl Hw) as Hspec.
  destruct (Enabled.DEBUG_CHECK_LEVEL lv (debug_level w)) eqn:E.
  - split.
    + split; intros _; [now apply Hspec | now apply Hyes].
    + intros Hn. exfalso. apply Hn. now apply Hspec.
  - assert (Hn : ~ shouldEmit (value_of lv) (debug_level w)).
    { intros Hs. apply Hspec in Hs. discriminate. }
    split.
    + split; intros H; [| contradiction].
      exfalso. now apply (silent_not_emits m w (Hno eq_refl)).
    + intros _. now apply Hno.
Qed.

(** C2. For a level [L] of any integer type and a threshold [T], the gate
    of the enabled macros holds exactly when [0 < L <= T], and a call made
    with that level emits exactly then, through each of [fdebugl], [debugl],
    [fdebuglf] and [debuglf]; otherwise the call is silent.  In particular
    no level [L <= 0] emits for any threshold, and no level emits when the
    threshold is [0]. *)
Theorem emission_iff_level_within_threshold {U} (here : call_site)
    (lv : cint) (file : FILE_ptr) (s fmt : string) (args : list carg)
    (w : world U) :
  representable lv ->
  well_typed w ->
  plain (__FILE__ here) = true ->
  format fmt args <> None ->
  let L := value_of lv in
  let T := debug_level w in
  (Enabled.DEBUG_CHECK_LEVEL lv T = true <-> 0 < L <= T)
  /\ (emits (Enabled.fdebugl here (lit lv) (lit file) (lit s)) w
      <-> 0 < L <= T)
  /\ (emits (Enabled.debugl here (lit lv) (lit s)) w <-> 0 < L <= T)
  /\ (emits (Enabled.fdebuglf here (lit lv) (lit file) (lit fmt) (map lit args)) w
      <-> 0 < L <= T)
  /\ (emits (Enabled.debuglf here (lit lv) (lit fmt) (map lit args)) w
      <-> 0 < L <= T)
  /\ (L <= 0 \/ T = 0 ->
      silent (Enabled.fdebugl here (lit lv) (lit file) (lit s)) w
      /\ silent (Enabled.debugl here (lit lv) (lit s)) w
      /\ silent (Enabled.fdebuglf here (lit lv) (lit file) (lit fmt) (map lit args)) w
      /\ silent (Enabled.debuglf here (lit lv) (lit fmt) (map lit args)) w).
Proof.
  intros Hl Hw Hp Hfmt L T.
  pose proof (decided_by_gate _ w lv Hl Hw
                (fdebugl_emits_iff here lv (lit file) s w Hp eq_refl)) as [A1 A2].
  pose proof (decided_by_gate _ w lv Hl Hw
                (fdebugl_emits_iff here lv var_debug_stream s w Hp eq_refl))
    as [B1 B2].
  pose proof (decided_by_gate _ w lv Hl Hw
                (fdebuglf_emits_iff here lv (lit file) fmt args w Hp Hfmt eq_refl))
    as [C1 C2].
  pose proof (decided_by_gate _ w lv Hl Hw
                (fdebuglf_emits_iff here lv var_debug_stream fmt args w Hp Hfmt
                   eq_refl)) as [D1 D2].
  split; [apply (DEBUG_CHECK_LEVEL_spec lv (debug_level w) Hl Hw) |].
  split; [exact A1 |]. split; [exact B1 |].
  split; [exact C1 |]. split; [exact D1 |].
  intros Hout.
  assert (Hn : ~ shouldEmit (value_of lv) (debug_level w)).
  { unfold shouldEmit. fold L T. lia. }
  auto.
Qed.

(** A level of type [int], threshold 1, destination unset. *)
Lemma emission_iff_level_within_threshold_witness :
  let w := sample_world NULL 1 0 in
  let lv := Cint Tint 1 in
  (Enabled.DEBUG_CHECK_LEVEL lv 1 = true <-> 0 < 1 <= 1)
  /\ (emits (Enabled.fdebugl sample_site (lit lv) (lit NULL) (lit "hello"%string)) w
      <-> 0 < 1 <= 1)
  /\ (emits (Enabled.debugl sample_site (lit lv) (lit "hello"%string)) w
      <-> 0 < 1 <= 1)
  /\ (emits (Enabled.fdebuglf sample_site (lit lv) (lit NULL)
               (lit "count=%d"%string) (map lit [AInt 7])) w
      <-> 0 < 1 <= 1)
  /\ (emits (Enabled.debuglf sample_site (lit lv)
               (lit "count=%d"%string) (map lit [AInt 7])) w
      <-> 0 < 1 <= 1)
  /\ (1 <= 0 \/ 1 = 0 ->
      silent (Enabled.fdebugl sample_site (lit lv) (lit NULL) (lit "hello"%string)) w
      /\ silent (Enabled.debugl sample_site (lit lv) (lit "hello"%string)) w
      /\ silent (Enabled.fdebuglf sample_site (lit lv) (lit NULL)
                   (lit "count=%d"%string) (map lit [AInt 7])) w
      /\ silent (Enabled.debuglf sample_site (lit lv)
                   (lit "count=%d"%string) (map lit [AInt 7])) w).
Proof.
  apply (emission_iff_level_within_threshold sample_site (Cint Tint 1) NULL
           "hello" "count=%d" [AInt 7] (sample_world NULL 1 0)).
  - unfold representable, min_of, max_of; simpl; lia.
  - unfold well_typed, max_of; simpl; lia.
  - reflexivity.
  - discriminate.
Defined.

(** ** The configuration at process start *)

(** C8. At process start the threshold is [1] without a [DEBUG_LEVEL]
    override and the override's value (as an [unsigned int]) with one; it
    lies in the range of [unsigned int], so it is never negative;
    [debug_stream] is null, which the macros resolve to the standard error
    stream, so a first implicit-destination call writes its line there. *)
Theorem initial_configuration {U} (u : U) (d : Z) (here : call_site)
    (s : string) :
  0 <= d <= max_of Tuint ->
  plain (__FILE__ here) = true ->
  debug_level (initial_world None u) = 1
  /\ debug_level (initial_world (Some d) u) = d
  /\ (forall o : option Z, well_typed (initial_world o u))
  /\ (forall o : option Z,
        Enabled.DEBUG_CHECK_FILE (debug_stream (initial_world o u))
        = Some stderr)
  /\ Enabled.debug here (lit s) (initial_world None u)
     = Some (tt, World NULL 1 u
                   [Wrote stderr (diagnostic_line here s); Flushed stderr]).
Proof.
  intros Hd Hp.
  split; [reflexivity |].
  split.
  { change (d mod 2 ^ 32 = d). change (0 <= d <= 2 ^ 32 - 1) in Hd.
    apply Z.mod_small. lia. }
  split.
  { intros [x |].
    - change (0 <= x mod 2 ^ 32 <= 2 ^ 32 - 1).
      pose proof (Z.mod_pos_bound x (2 ^ 32) eq_refl). lia.
    - change (0 <= 1 <= 2 ^ 32 - 1). lia. }
  split; [intros o; reflexivity |].
  unfold Enabled.debug.
  rewrite (fdebugl_passed here _ _ _ _ Hp); reflexivity.
Qed.

Lemma initial_configuration_witness :
  debug_level (initial_world None tt) = 1
  /\ debug_level (initial_world (Some 3) tt) = 3
  /\ (forall o : option Z, well_typed (initial_world o tt))
  /\ (forall o : option Z,
        Enabled.DEBUG_CHECK_FILE (debug_stream (initial_world o tt))
        = Some stderr)
  /\ Enabled.debug sample_site (lit "hello"%string) (initial_world None tt)
     = Some (tt, World NULL 1 tt
                   [Wrote stderr (diagnostic_line sample_site "hello");
                    Flushed stderr]).
Proof.
  apply (initial_configuration tt 3 sample_site "hello").
  - unfold max_of; simpl; lia.
  - reflexivity.
Defined.

(** The override is converted to [unsigned int]: it wraps modulo [2^32]. *)
Lemma initial_debug_level_wraps (d : Z) :
  initial_debug_level (Some d) = d mod 2 ^ 32.
Proof.
  reflexivity.
Qed.

(** ** Suppressed calls *)

(** C9. A call whose level fails the gate ([L <= 0] or [L] above the
    threshold) completes without signalling anything and leaves the process
    in the state in which the evaluation of the level left it: nothing is
    written or flushed on any stream, and the destination and payload
    expressions, whatever they are, have not been evaluated.  This holds for
    [fdebugl], [debugl], [fdebuglf] and [debuglf], and, when the threshold
    is [0], for the fixed-level forms [debug], [fdebug], [debugf] and
    [fdebugf]. *)
Theorem gated_call_is_suppressed {U} (here : call_site)
    (level : expr U cint) (file : expr U FILE_ptr) (str fmt : expr U string)
    (args : list (expr U carg)) (w : world U) :
  let L := fst (level w) in
  let w1 := snd (level w) in
  representable L ->
  well_typed w1 ->
  value_of L <= 0 \/ debug_level w1 < value_of L ->
  Enabled.fdebugl here level file str w = Some (tt, w1)
  /\ Enabled.debugl here level str w = Some (tt, w1)
  /\ Enabled.fdebuglf here level file fmt args w = Some (tt, w1)
  /\ Enabled.debuglf here level fmt args w = Some (tt, w1)
  /\ (debug_level w = 0 ->
      Enabled.debug here str w = Some (tt, w)
      /\ Enabled.fdebug here file str w = Some (tt, w)
      /\ Enabled.debugf here fmt args w = Some (tt, w)
      /\ Enabled.fdebugf here file fmt args w = Some (tt, w)).
Proof.
  intros L w1 Hl Hw Hout.
  assert (Hgate : Enabled.DEBUG_CHECK_LEVEL L (debug_level w1) = false).
  { apply DEBUG_CHECK_LEVEL_false; auto. unfold shouldEmit. lia. }
  split; [apply fdebugl_blocked; exact Hgate |].
  split; [apply fdebugl_blocked; exact Hgate |].
  split; [apply fdebuglf_blocked; exact Hgate |].
  split; [apply fdebuglf_blocked; exact Hgate |].
  intros H0.
  assert (Hone : Enabled.DEBUG_CHECK_LEVEL (Cint Tint 1) (debug_level w) = false)
    by now rewrite H0.
  repeat split;
    first [ apply (fdebugl_blocked here (lit (Cint Tint 1)) _ _ w Hone)
          | apply (fdebuglf_blocked here (lit (Cint Tint 1)) _ _ _ w Hone) ].
Qed.

(** Threshold 0, level 5; the destination and the payload are expressions
    that would step the counter. *)
Lemma gated_call_is_suppressed_witness :
  let w := sample_world (Some stdout) 0 0 in
  let level := lit (Cint Tint 5) in
  let file := counting (Some stdout) in
  let str := counting "tick"%string in
  Enabled.fdebugl sample_site level file str w = Some (tt, w)
  /\ Enabled.debugl sample_site level str w = Some (tt, w)
  /\ Enabled.fdebuglf sample_site level file str [counting (AInt 7)] w
     = Some (tt, w)
  /\ Enabled.debuglf sample_site level str [counting (AInt 7)] w = Some (tt, w)
  /\ Enabled.debug sample_site str w = Some (tt, w)
  /\ Enabled.fdebug sample_site file str w = Some (tt, w)
  /\ Enabled.debugf sample_site str [counting (AInt 7)] w = Some (tt, w)
  /\ Enabled.fdebugf sample_site file str [counting (AInt 7)] w = Some (tt, w).
Proof.
  destruct (gated_call_is_suppressed sample_site (lit (Cint Tint 5))
              (counting (Some stdout)) (counting "tick"%string)
              (counting "tick"%string) [counting (AInt 7)]
              (sample_world (Some stdout) 0 0))
    as (H1 & H2 & H3 & H4 & H5).
  - unfold representable, min_of, max_of; simpl; lia.
  - unfold well_typed, max_of; simpl; lia.
  - simpl; lia.
  - destruct (H5 eq_refl) as (H6 & H7 & H8 & H9).
    repeat split; assumption.
Defined.

(** Scenario B of the specification: threshold 2, explicit level 5, no
    output. *)
Example scenario_B :
  Enabled.debugl sample_site (lit (Cint Tint 5)) (lit "hello"%string)
    (sample_world NULL 2 0)
  = Some (tt, sample_world NULL 2 0).
Proof.
  reflexivity.
Qed.

(** ** The configuration is read, never written *)

Lemma keeps_config_lit {U A} (a : A) : keeps_config (@lit U A a).
Proof.
  intros w. split; reflexivity.
Qed.

Lemma keeps_config_var_debug_stream {U} : keeps_config (@var_debug_stream U).
Proof.
  intros w. split; reflexivity.
Qed.

Lemma eval_all_keeps_config {U A} (es : list (expr U A)) :
  Forall keeps_config es ->
  forall (w w' : world U) (vs : list A),
    eval_all es w = Some (vs, w') ->
    debug_level w' = debug_level w /\ debug_stream w' = debug_stream w.
Proof.
  induction 1 as [| e es He Hes IH]; simpl; intros w w' vs Hrun.
  - injection Hrun as _ <-. split; reflexivity.
  - unfold bind, eval, ret in Hrun.
    destruct (e w) as [a w1] eqn:Ee.
    destruct (eval_all es w1) as [[r w2] |] eqn:Er; [| discriminate].
    injection Hrun as _ <-.
    destruct (IH _ _ _ Er) as [IH1 IH2].
    pose proof (He w) as [H1 H2]. rewrite Ee in H1, H2. simpl in H1, H2.
    split; congruence.
Qed.

Lemma fdebugl_preserves_config {U} (here : call_site) (level : expr U cint)
    (file : expr U FILE_ptr) (str : expr U string) :
  keeps_config level -> keeps_config file -> keeps_config str ->
  preserves_config (Enabled.fdebugl here level file str).
Proof.
  intros Hl Hf Hs w w' Hrun. rewrite fdebugl_run in Hrun.
  pose proof (Hl w) as [L1 L2]. destruct (level w) as [lv w1]. simpl in L1, L2.
  destruct (Enabled.DEBUG_CHECK_LEVEL lv (debug_level w1)).
  - pose proof (Hf w1) as [F1 F2]. destruct (file w1) as [f w2].
    pose proof (Hs w2) as [S1 S2]. destruct (str w2) as [s w3].
    simpl in F1, F2, S1, S2.
    destruct (format _ _); [| discriminate].
    injection Hrun as <-. simpl. split; congruence.
  - injection Hrun as <-. split; assumption.
Qed.

Lemma fdebuglf_preserves_config {U} (here : call_site) (level : expr U cint)
    (file : expr U FILE_ptr) (fmt : expr U string) (args : list (expr U carg)) :
  keeps_config level -> keeps_config file -> keeps_config fmt ->
  Forall keeps_config args ->
  preserves_config (Enabled.fdebuglf here level file fmt args).
Proof.
  intros Hl Hf Hm Ha w w' Hrun.
  unfold Enabled.fdebuglf, bind, eval, ret, var_debug_level, fprintf, fflush
    in Hrun.
  pose proof (Hl w) as [L1 L2]. destruct (level w) as [lv w1]. simpl in L1, L2.
  destruct (Enabled.DEBUG_CHECK_LEVEL lv (debug_level w1)).
  - pose proof (Hf w1) as [F1 F2]. destruct (file w1) as [f w2].
    simpl in F1, F2.
    destruct (Enabled.DEBUG_CHECK_FILE f) as [d |]; [| discriminate].
    destruct (format _ [AStr (FUNCTION here)]) as [prefix |]; [| discriminate].
    pose proof (Hm (record (Wrote d prefix) w2)) as [M1 M2].
    destruct (fmt (record (Wrote d prefix) w2)) as [template w3].
    simpl in M1, M2.
    destruct (eval_all args w3) as [[vs w4] |] eqn:Ea; [| discriminate].
    destruct (eval_all_keeps_config args Ha _ _ _ Ea) as [A1 A2].
    destruct (format template vs); [| discriminate].
    simpl in Hrun. injection Hrun as <-. simpl. split; congruence.
  - injection Hrun as <-. split; assumption.
Qed.

(** C10. No entry point of the enabled header writes [debug_level] or
    [debug_stream]: when the argument expressions of a call leave the two
    globals alone, the call, emitting or not, completes with both holding
    the values they had before it. *)
Theorem entry_points_preserve_configuration {U} (here : call_site)
    (level : expr U cint) (file : expr U FILE_ptr) (str fmt : expr U string)
    (args : list (expr U carg)) :
  keeps_config level ->
  keeps_config file ->
  keeps_config str ->
  keeps_config fmt ->
  Forall keeps_config args ->
  preserves_config (Enabled.debug here str)
  /\ preserves_config (Enabled.debugl here level str)
  /\ preserves_config (Enabled.debugf here fmt args)
  /\ preserves_config (Enabled.fdebug here file str)
  /\ preserves_config (Enabled.fdebugf here file fmt args)
  /\ preserves_config (Enabled.debuglf here level fmt args)
  /\ preserves_config (Enabled.fdebuglf here level file fmt args)
  /\ preserves_config (Enabled.fdebugl here level file str).
Proof.
  intros Hl Hf Hs Hm Ha.
  unfold Enabled.debug, Enabled.debugl, Enabled.debugf, Enabled.fdebug,
    Enabled.fdebugf, Enabled.debuglf.
  repeat apply conj;
    first [ apply fdebugl_preserves_config | apply fdebuglf_preserves_config ];
    auto using keeps_config_lit, keeps_config_var_debug_stream.
Qed.

Lemma keeps_config_counting {A} (a : A) : keeps_config (counting a).
Proof.
  intros w. split; reflexivity.
Defined.

(** Arguments that step the caller's counter. *)
Lemma entry_points_preserve_configuration_witness :
  let level := counting (Cint Tint 1) in
  let file := counting (Some stdout) in
  let str := counting "tick"%string in
  let fmt := counting "count=%d"%string in
  let args := [counting (AInt 7)] in
  preserves_config (Enabled.debug sample_site str)
  /\ preserves_config (Enabled.debugl sample_site level str)
  /\ preserves_config (Enabled.debugf sample_site fmt args)
  /\ preserves_config (Enabled.fdebug sample_site file str)
  /\ preserves_config (Enabled.fdebugf sample_site file fmt args)
  /\ preserves_config (Enabled.debuglf sample_site level fmt args)
  /\ preserves_config (Enabled.fdebuglf sample_site level file fmt args)
  /\ preserves_config (Enabled.fdebugl sample_site level file str).
Proof.
  apply (entry_points_preserve_configuration sample_site
           (counting (Cint Tint 1)) (counting (Some stdout))
           (counting "tick"%string) (counting "count=%d"%string)
           [counting (AInt 7)]).
  - apply keeps_config_counting.
  - apply keeps_config_counting.
  - apply keeps_config_counting.
  - apply keeps_config_counting.
  - constructor; [apply keeps_config_counting | constructor].
Defined.

(** From a file with a plain name a literal call always completes, so the
    invariant is not an empty promise. *)
Lemma fdebugl_completes {U} (here : call_site) (level : expr U cint)
    (file : expr U FILE_ptr) (str : expr U string) (w : world U) :
  plain (__FILE__ here) = true ->
  exists w', Enabled.fdebugl here level file str w = Some (tt, w').
Proof.
  intros Hp.
  destruct (Enabled.DEBUG_CHECK_LEVEL (fst (level w))
              (debug_level (snd (level w)))) eqn:Hgate.
  - eexists. apply (fdebugl_passed here level file str w Hp Hgate).
  - eexists. apply (fdebugl_blocked here level file str w Hgate).
Qed.

(** Scenario C of the
    specification, threshold 3, level 2, format ["count=%d"] with 7. *)
Example scenario_C :
  Enabled.debuglf sample_site (lit (Cint Tint 2)) (lit "count=%d"%string)
    [lit (AInt 7)] (sample_world NULL 3 0)
  = Some (tt, World NULL 3 0
                [Wrote stderr "main 42 run: "; Wrote stderr "count=7";
                 Wrote stderr (String "010" ""); Flushed stderr])
  /\ output_on stderr
       [Wrote stderr "main 42 run: "; Wrote stderr "count=7";
        Wrote stderr (String "010" ""); Flushed stderr]
     = diagnostic_line sample_site "count=7".
Proof.
  split; reflexivity.
Qed.

(** ** One canonical emission *)




(** When the gate lets the call through, the order is: level, destination,
    message, write, flush. *)
Example evaluation_order :
  Enabled.fdebugl sample_site
    (fun w => (Cint Tint 1, record (Wrote stdout "level ") w))
    (fun w => (Some stdout, record (Wrote stdout "file ") w))
    (fun w => ("hello"%string, record (Wrote stdout "string ") w))
    (sample_world NULL 1 0)
  = Some (tt, World NULL 1 0
                [Wrote stdout "level "; Wrote stdout "file ";
                 Wrote stdout "string ";
                 Wrote stdout (diagnostic_line sample_site "hello");
                 Flushed stdout]).
Proof.
  reflexivity.
Qed.

(** ** Write, then flush *)

(** C6. A call that passes the gate writes its line to the resolved
    destination and flushes that destination next, as its last action,
    before it completes: [fdebugl] (and so [debug], [fdebug], [debugl])
    adds the line and the flush to the trace, [fdebuglf] (and so [debugf],
    [fdebugf], [debuglf]) the three pieces of the line and the flush. *)
Theorem emission_is_flushed {U} (here : call_site) (level : expr U cint)
    (file : expr U FILE_ptr) (str : expr U string) (fmt message : string)
    (args : list carg) (w : world U) :
  plain (__FILE__ here) = true ->
  format fmt args = Some message ->
  Enabled.DEBUG_CHECK_LEVEL (fst (level w)) (debug_level (snd (level w))) = true ->
  let w1 := snd (level w) in
  let d := destination (fst (file w1)) in
  let w2 := snd (file w1) in
  (exists w',
      Enabled.fdebugl here level file str w = Some (tt, w')
      /\ trace w' = trace (snd (str w2))
                    ++ [Wrote d (diagnostic_line here (fst (str w2)));
                        Flushed d])
  /\ (exists w',
         Enabled.fdebuglf here level file (lit fmt) (map lit args) w
         = Some (tt, w')
         /\ trace w' = trace w2
                       ++ [Wrote d (Enabled.LINE_LOCATION here
                                    ++ FUNCTION here ++ ": ")%string;
                           Wrote d message;
                           Wrote d (String "010" "");
                           Flushed d]).
Proof.
  intros Hp Hf Hgate w1 d w2. split.
  - eexists. split; [apply (fdebugl_passed here level file str w Hp Hgate) |].
    simpl. now rewrite <- app_assoc.
  - eexists. split;
      [apply (fdebuglf_passed here level file fmt message args w Hp Hf Hgate) |].
    simpl. now rewrite <- !app_assoc.
Qed.

Lemma emission_is_flushed_witness :
  let w := sample_world NULL 1 0 in
  (exists w',
      Enabled.fdebugl sample_site (lit (Cint Tint 1)) (lit (Some stdout))
        (lit "hello"%string) w = Some (tt, w')
      /\ trace w' = [] ++ [Wrote stdout (diagnostic_line sample_site "hello");
                           Flushed stdout])
  /\ (exists w',
         Enabled.fdebuglf sample_site (lit (Cint Tint 1)) (lit (Some stdout))
           (lit "count=%d"%string) (map lit [AInt 7]) w = Some (tt, w')
         /\ trace w' = [] ++ [Wrote stdout "main 42 run: ";
                              Wrote stdout "count=7";
                              Wrote stdout (String "010" "");
                              Flushed stdout]).
Proof.
  apply (emission_is_flushed sample_site (lit (Cint Tint 1))
           (lit (Some stdout)) (lit "hello"%string) "count=%d" "count=7"
           [AInt 7] (sample_world NULL 1 0)).
  - reflexivity.
  - reflexivity.
  - reflexivity.
Defined.

(** ** Literal payloads and format payloads *)

(** With no argument left, the format of [fdebugl] cannot be completed,
    whatever the file name is. *)
Lemma format_without_arguments (t : string) (n : nat) :
  plain t = true ->
  forall file : string,
    (String.length file <= n)%nat ->
    format (file ++ literal_tail t) [] = None.
Proof.
  intros plain_t. unfold literal_tail.
  induction n as [| n IH]; intros file Hlen.
  - destruct file; [| simpl in Hlen; lia].
    simpl. now rewrite (format_plain_prefix _ _ _ plain_t).
  - destruct file as [| c r].
    + simpl. now rewrite (format_plain_prefix _ _ _ plain_t).
    + simpl in Hlen. simpl.
      destruct (c =? "%")%char.
      * destruct r as [| d r']; [reflexivity |]. simpl in Hlen. simpl.
        destruct (d =? "%")%char; [rewrite IH by lia; reflexivity |].
        destruct (d =? "s")%char; [reflexivity |].
        destruct (d =? "d")%char; reflexivity.
      * rewrite IH by lia. reflexivity.
Qed.

(** The single [fprintf] of [fdebugl] produces what the first [fprintf] of
    [fdebuglf] produces, followed by the message and the newline; this
    holds for every file name, also one in which [fprintf] finds
    directives.  The induction follows [format], which consumes one or two
    characters at a time. *)
Lemma format_split (t X : string) (n : nat) :
  plain t = true ->
  forall (file : string) (args : list carg),
    (String.length file <= n)%nat ->
    (List.length args <= 1)%nat ->
    format (file ++ literal_tail t) (args ++ [AStr X])
    = option_map (fun p => p ++ X ++ String "010" "")%string
        (format (file ++ prefix_tail t) args).
Proof.
  intros plain_t. unfold literal_tail, prefix_tail.
  induction n as [| n IH]; intros file args Hlen Hargs.
  - destruct file; [| simpl in Hlen; lia].
    simpl. rewrite !(format_plain_prefix _ _ _ plain_t).
    destruct args as [| [a | z] [| b args]]; simpl in *;
      try reflexivity; try lia.
    now rewrite !append_assoc.
  - destruct file as [| c r].
    + apply (IH ""%string args); [simpl; lia | assumption].
    + simpl in Hlen. simpl.
      destruct (c =? "%")%char.
      * destruct r as [| d r']; [reflexivity |]. simpl in Hlen. simpl.
        destruct (d =? "%")%char.
        { rewrite IH by lia.
          now destruct (format (r' ++ String " " (t ++ "%s: ")) args). }
        destruct (d =? "s")%char.
        { destruct args as [| [a | z] [| b args]]; simpl in *;
            try reflexivity; try lia.
          - pose proof (format_without_arguments t (String.length r') plain_t
                          r' (le_n _)) as Hnone.
            unfold literal_tail in Hnone. simpl in Hnone. now rewrite Hnone.
          - pose proof (IH r' [] ltac:(lia) ltac:(simpl; lia)) as Hr.
            change ([] ++ [AStr X]) with [AStr X] in Hr. rewrite Hr.
            destruct (format (r' ++ String " " (t ++ "%s: ")) []); simpl;
              [| reflexivity].
            now rewrite append_assoc. }
        destruct (d =? "d")%char; [| reflexivity].
        destruct args as [| [a | z] [| b args]]; simpl in *;
          try reflexivity; try lia.
        pose proof (IH r' [] ltac:(lia) ltac:(simpl; lia)) as Hr.
        change ([] ++ [AStr X]) with [AStr X] in Hr. rewrite Hr.
        destruct (format (r' ++ String " " (t ++ "%s: ")) []); simpl;
          [| reflexivity].
        now rewrite append_assoc.
      * rewrite IH by lia.
        now destruct (format (r ++ String " " (t ++ "%s: ")) args).
Qed.

Lemma format_literal_as_prefix (here : call_site) (X : string) :
  format (Enabled.LINE_LOCATION here ++ "%s: %s" ++ String "010" "")
         [AStr (FUNCTION here); AStr X]
  = option_map (fun p => p ++ X ++ String "010" "")%string
      (format (Enabled.LINE_LOCATION here ++ "%s: ") [AStr (FUNCTION here)]).
Proof.
  pose proof (format_split (Enabled.debug_quote (__LINE__ here) ++ " ") X
                (String.length (__FILE__ here))) as H.
  rewrite plain_append, plain_debug_quote in H.
  specialize (H eq_refl (__FILE__ here) [AStr (FUNCTION here)] (le_n _) (le_n _)).
  unfold literal_tail, prefix_tail in H.
  unfold Enabled.LINE_LOCATION.
  rewrite !append_assoc in H. simpl in H.
  rewrite !append_assoc. simpl. exact H.
Qed.

Lemma output_after_write_any {U} (d f : stream) (bytes : string) (w : world U) :
  output_on d (trace (record (Wrote f bytes) w))
  = (output_on d (trace w) ++ if stream_eqb d f then bytes else "")%string.
Proof.
  simpl. rewrite output_on_app. simpl.
  destruct (stream_eqb d f); now rewrite ?append_empty_r.
Qed.

(** Written in one piece or in three, the bytes are the same. *)
Lemma output_in_pieces {U} (d f : stream) (p m : string) (w : world U) :
  output_on d
    (trace (record (Flushed f)
              (record (Wrote f (String "010" ""))
                 (record (Wrote f m) (record (Wrote f p) w)))))
  = output_on d
      (trace (record (Flushed f)
                (record (Wrote f (p ++ m ++ String "010" "")) w))).
Proof.
  rewrite !output_after_flush, !output_after_write_any.
  destruct (stream_eqb d f).
  - now rewrite !append_assoc.
  - now rewrite !append_empty_r.
Qed.

Lemma literal_and_format_agree {U} (here : call_site) (level : expr U cint)
    (file : expr U FILE_ptr) (X fmt : string) (args : list carg)
    (w : world U) (d : stream) :
  format fmt args = Some X ->
  bytes_on d (Enabled.fdebugl here level file (lit X)) w
  = bytes_on d (Enabled.fdebuglf here level file (lit fmt) (map lit args)) w.
Proof.
  intros Hfmt. unfold bytes_on. rewrite fdebugl_run, fdebuglf_run.
  destruct (level w) as [lv w1].
  destruct (Enabled.DEBUG_CHECK_LEVEL lv (debug_level w1)); [| reflexivity].
  destruct (file w1) as [f w2]. unfold lit at 1.
  rewrite format_literal_as_prefix, Hfmt.
  destruct (format _ [AStr (FUNCTION here)]) as [p |]; [| reflexivity].
  cbn [option_map snd]. f_equal. symmetry. apply output_in_pieces.
Qed.

(** C7 (amended).  For every string [X], the literal call
    [fdebugl (L, f, X)] and the format call [fdebuglf (L, f, "%s", X)] leave
    the same bytes on every stream, and complete in the same cases.  For
    every string [X] that contains no [%], the format call without
    arguments [fdebuglf (L, f, X)] does the same as the literal call
    [fdebugl (L, f, X)]. *)
Theorem literal_and_format_payloads_agree {U} (here : call_site)
    (level : expr U cint) (file : expr U FILE_ptr) (X : string)
    (w : world U) (d : stream) :
  bytes_on d (Enabled.fdebugl here level file (lit X)) w
  = bytes_on d (Enabled.fdebuglf here level file (lit "%s"%string)
                  [lit (AStr X)]) w
  /\ (plain X = true ->
      bytes_on d (Enabled.fdebuglf here level file (lit X) []) w
      = bytes_on d (Enabled.fdebugl here level file (lit X)) w).
Proof.
  split.
  - apply (literal_and_format_agree here level file X "%s" [AStr X] w d).
    simpl. now rewrite append_empty_r.
  - intros Hplain. symmetry.
    apply (literal_and_format_agree here level file X X [] w d).
    now apply format_plain.
Qed.

Lemma literal_and_format_payloads_agree_witness :
  let w := sample_world NULL 1 0 in
  let one := lit (Cint Tint 1) in
  bytes_on stderr
    (Enabled.fdebuglf sample_site one (lit NULL) (lit "hello"%string) []) w
  = bytes_on stderr
      (Enabled.fdebugl sample_site one (lit NULL) (lit "hello"%string)) w.
Proof.
  destruct (literal_and_format_payloads_agree sample_site (lit (Cint Tint 1))
              (lit NULL) "hello" (sample_world NULL 1 0) stderr) as [_ H].
  apply H. reflexivity.
Defined.

(** C7 as the specification states it fails for a text with [%]: the
    format call [fdebuglf (1, NULL, "%%")] prints one [%], the literal call
    [fdebugl (1, NULL, "%%")] prints two. *)
Lemma zero_argument_format_differs_from_literal :
  let w := sample_world NULL 1 0 in
  let one := lit (Cint Tint 1) in
  bytes_on stderr
    (Enabled.fdebuglf sample_site one (lit NULL) (lit "%%"%string) []) w
  = Some ("main 42 run: %" ++ String "010" "")%string
  /\ bytes_on stderr
       (Enabled.fdebugl sample_site one (lit NULL) (lit "%%"%string)) w
     = Some ("main 42 run: %%" ++ String "010" "")%string
  /\ bytes_on stderr
       (Enabled.fdebuglf sample_site one (lit NULL) (lit "%%"%string) []) w
     <> bytes_on stderr
          (Enabled.fdebugl sample_site one (lit NULL) (lit "%%"%string)) w.
Proof.
  repeat split; try reflexivity.
  vm_compute. discriminate.
Qed.

(** The same text as a literal and through ["%s"]. *)
Example percent_through_string_directive :
  bytes_on stderr
    (Enabled.fdebuglf sample_site (lit (Cint Tint 1)) (lit NULL)
       (lit "%s"%string) [lit (AStr "%%")]) (sample_world NULL 1 0)
  = Some ("main 42 run: %%" ++ String "010" "")%string.
Proof.
  reflexivity.
Qed.

(** ** The shape of a line *)

(** The line number is written in decimal: reading it back as a decimal
    numeral gives the number. *)
Lemma line_number_is_decimal (n : N) :
  option_map N.of_uint (NilZero.uint_of_string (Enabled.debug_quote n)) = Some n.
Proof.
  unfold Enabled.debug_quote. rewrite NilZero.usu.
  - simpl. now rewrite DecimalN.Unsigned.of_to.
  - destruct n; simpl; [discriminate | apply DecimalPos.Unsigned.to_uint_nonnil].
Qed.

(** From a file whose name is plain, a call that passes the gate adds
    exactly [<file> <line> <function>: <message>\n] to its destination, the
    message whole, whatever its length: no macro mentions
    [DEBUG_MAX_LENGTH]. *)
Lemma emitted_line_has_specified_shape {U} (here : call_site) (lv : cint)
    (file : FILE_ptr) (s fmt message : string) (args : list carg)
    (w : world U) :
  plain (__FILE__ here) = true ->
  format fmt args = Some message ->
  Enabled.DEBUG_CHECK_LEVEL lv (debug_level w) = true ->
  let d := destination file in
  bytes_on d (Enabled.fdebugl here (lit lv) (lit file) (lit s)) w
  = Some (output_on d (trace w) ++ diagnostic_line here s)%string
  /\ bytes_on d (Enabled.fdebuglf here (lit lv) (lit file) (lit fmt)
                   (map lit args)) w
     = Some (output_on d (trace w) ++ diagnostic_line here message)%string.
Proof.
  intros Hp Hf Hgate d.
  assert (Hlit : bytes_on d (Enabled.fdebugl here (lit lv) (lit file) (lit s)) w
                 = Some (output_on d (trace w) ++ diagnostic_line here s)%string).
  { unfold bytes_on.
    rewrite (fdebugl_passed here (lit lv) (lit file) (lit s) w Hp Hgate).
    cbn [option_map snd fst lit].
    now rewrite output_after_flush, output_after_write. }
  split; [exact Hlit |].
  rewrite <- (literal_and_format_agree here (lit lv) (lit file) message fmt
                args w d Hf).
  unfold bytes_on.
  rewrite (fdebugl_passed here (lit lv) (lit file) (lit message) w Hp Hgate).
  cbn [option_map snd fst lit].
  now rewrite output_after_flush, output_after_write.
Qed.

(** Scenario A of the specification. *)
Example scenario_A :
  Enabled.debug sample_site (lit "hello"%string) (sample_world NULL 1 0)
  = Some (tt, World NULL 1 0
                [Wrote stderr ("main 42 run: hello" ++ String "010" "");
                 Flushed stderr]).
Proof.
  reflexivity.
Qed.

(** C3, where the code departs from it.  The file name is pasted into the
    format string of [fprintf], so a [%] in it is read as a directive: from
    a file named [a%%b.c] the line starts with [a%b.c], which is not the
    file name, and the emitted line is not
    [<file> <line> <function>: <message>\n]. *)
Theorem percent_in_file_name_is_read_as_directive :
  let here := Site "a%%b.c" 42 "run" in
  let w := sample_world NULL 1 0 in
  Enabled.debug here (lit "hello"%string) w
  = Some (tt, World NULL 1 0
                [Wrote stderr ("a%b.c 42 run: hello" ++ String "010" "");
                 Flushed stderr])
  /\ diagnostic_line here "hello"
     = ("a%%b.c 42 run: hello" ++ String "010" "")%string
  /\ bytes_on stderr (Enabled.debug here (lit "hello"%string)) w
     <> Some (diagnostic_line here "hello").
Proof.
  repeat split; try reflexivity.
  vm_compute. discriminate.
Qed.

(** ** Destination resolution *)

Lemma output_elsewhere {U} (d f : stream) (bytes : string) (w : world U) :
  stream_eqb d f = false ->
  output_on d (trace (record (Flushed f) (record (Wrote f bytes) w)))
  = output_on d (trace w).
Proof.
  intros Hne.
  now rewrite output_after_flush, output_after_write_any, Hne, append_empty_r.
Qed.

(** C4 as the specification states it fails on a null explicit destination
    when [debug_stream] is set: the specification resolves it to
    [debug_stream], the macros to the standard error stream.  With
    [debug_stream] an open file, [fdebug (NULL, "hello")] writes its line to
    the standard error stream and nothing to the file. *)
Lemma null_destination_goes_to_stderr_not_debug_stream :
  let log := opened 3 in
  let w := sample_world (Some log) 1 0 in
  resolve_as_specified NULL w = Some log
  /\ Enabled.DEBUG_CHECK_FILE NULL <> resolve_as_specified NULL w
  /\ Enabled.fdebug sample_site (lit NULL) (lit "hello"%string) w
     = Some (tt, World (Some log) 1 0
                   [Wrote stderr (diagnostic_line sample_site "hello");
                    Flushed stderr])
  /\ bytes_on log (Enabled.fdebug sample_site (lit NULL) (lit "hello"%string)) w
     = Some ""%string.
Proof.
  repeat split; try reflexivity. discriminate.
Qed.

(** C4 (amended).  A non-null explicit destination is used; a null one is
    replaced by the standard error stream ([DEBUG_DEFAULT_STREAM]),
    whatever [debug_stream] holds.  The implicit-destination calls pass
    [debug_stream] as the destination, so each does what the matching
    explicit-destination call does when given the current value of
    [debug_stream]; they write to [debug_stream] when it is set and to the
    standard error stream otherwise.  A valid explicit destination receives
    the line, and no other stream, the default included, receives
    anything. *)
Theorem destination_resolution {U} (here : call_site) (lv : cint) (f : stream)
    (s : string) (str fmt : expr U string) (args : list (expr U carg))
    (w : world U) :
  plain (__FILE__ here) = true ->
  Enabled.DEBUG_CHECK_LEVEL lv (debug_level w) = true ->
  Enabled.DEBUG_CHECK_FILE (Some f) = Some f
  /\ Enabled.DEBUG_CHECK_FILE NULL = Some stderr
  /\ Enabled.debug here str w = Enabled.fdebug here (lit (debug_stream w)) str w
  /\ Enabled.debugl here (lit lv) str w
     = Enabled.fdebugl here (lit lv) (lit (debug_stream w)) str w
  /\ Enabled.debugf here fmt args w
     = Enabled.fdebugf here (lit (debug_stream w)) fmt args w
  /\ Enabled.debuglf here (lit lv) fmt args w
     = Enabled.fdebuglf here (lit lv) (lit (debug_stream w)) fmt args w
  /\ Enabled.fdebugl here (lit lv) (lit (Some f)) (lit s) w
     = Some (tt, record (Flushed f)
                   (record (Wrote f (diagnostic_line here s)) w))
  /\ (forall d : stream,
        stream_eqb d f = false ->
        bytes_on d (Enabled.fdebugl here (lit lv) (lit (Some f)) (lit s)) w
        = Some (output_on d (trace w)))
  /\ Enabled.fdebugl here (lit lv) (lit NULL) (lit s) w
     = Some (tt, record (Flushed stderr)
                   (record (Wrote stderr (diagnostic_line here s)) w))
  /\ Enabled.debugl here (lit lv) (lit s) w
     = Some (tt, record (Flushed (destination (debug_stream w)))
                   (record (Wrote (destination (debug_stream w))
                              (diagnostic_line here s)) w)).
Proof.
  intros Hp Hgate.
  do 2 (split; [reflexivity |]).
  do 4 (split;
        [unfold Enabled.debug, Enabled.fdebug, Enabled.debugl, Enabled.debugf,
           Enabled.fdebugf, Enabled.debuglf, Enabled.fdebugl, Enabled.fdebuglf,
           bind, eval, lit, var_debug_stream, var_debug_level;
         match goal with
         | |- (if ?gate then _ else _) _ = _ => now destruct gate
         end |]).
  pose proof (fdebugl_passed here (lit lv) (lit (Some f)) (lit s) w Hp Hgate)
    as Hexplicit.
  split; [exact Hexplicit |].
  split.
  { intros d Hne. unfold bytes_on. rewrite Hexplicit. cbn [option_map snd].
    f_equal. apply (output_elsewhere d f _ w Hne). }
  split.
  - apply (fdebugl_passed here (lit lv) (lit NULL) (lit s) w Hp Hgate).
  - apply (fdebugl_passed here (lit lv) var_debug_stream (lit s) w Hp Hgate).
Qed.

(** Scenario D of the specification: [debug_stream] is one file, the
    explicit destination another. *)
Lemma destination_resolution_witness :
  let w := sample_world (Some (opened 3)) 1 0 in
  let lv := Cint Tint 1 in
  let f := opened 4 in
  let str := counting "tick"%string in
  let fmt := counting "count=%d"%string in
  let args := [counting (AInt 7)] in
  Enabled.DEBUG_CHECK_FILE (Some f) = Some f
  /\ Enabled.DEBUG_CHECK_FILE NULL = Some stderr
  /\ Enabled.debug sample_site str w
     = Enabled.fdebug sample_site (lit (debug_stream w)) str w
  /\ Enabled.debugl sample_site (lit lv) str w
     = Enabled.fdebugl sample_site (lit lv) (lit (debug_stream w)) str w
  /\ Enabled.debugf sample_site fmt args w
     = Enabled.fdebugf sample_site (lit (debug_stream w)) fmt args w
  /\ Enabled.debuglf sample_site (lit lv) fmt args w
     = Enabled.fdebuglf sample_site (lit lv) (lit (debug_stream w)) fmt args w
  /\ Enabled.fdebugl sample_site (lit lv) (lit (Some f)) (lit "hello"%string) w
     = Some (tt, record (Flushed f)
                   (record (Wrote f (diagnostic_line sample_site "hello")) w))
  /\ (forall d : stream,
        stream_eqb d f = false ->
        bytes_on d (Enabled.fdebugl sample_site (lit lv) (lit (Some f))
                      (lit "hello"%string)) w
        = Some (output_on d (trace w)))
  /\ Enabled.fdebugl sample_site (lit lv) (lit NULL) (lit "hello"%string) w
     = Some (tt, record (Flushed stderr)
                   (record (Wrote stderr (diagnostic_line sample_site "hello"))
                      w))
  /\ Enabled.debugl sample_site (lit lv) (lit "hello"%string) w
     = Some (tt, record (Flushed (destination (debug_stream w)))
                   (record (Wrote (destination (debug_stream w))
                              (diagnostic_line sample_site "hello")) w)).
Proof.
  apply (destination_resolution sample_site (Cint Tint 1) (opened 4) "hello"
           (counting "tick"%string) (counting "count=%d"%string)
           [counting (AInt 7)] (sample_world (Some (opened 3)) 1 0)).
  - reflexivity.
  - reflexivity.
Defined.

(** * Further properties of the header *)

(** ** The line number *)

(** X1. [debug_quote] writes the line number as a decimal numeral: reading
    the text back gives the number, so two line numbers have the same text
    only when they are equal; the text is never empty and holds no [%]. *)
Theorem line_number_text_reads_back (m n : N) :
  option_map N.of_uint (NilZero.uint_of_string (Enabled.debug_quote n)) = Some n
  /\ (Enabled.debug_quote m = Enabled.debug_quote n <-> m = n)
  /\ plain (Enabled.debug_quote n) = true
  /\ Enabled.debug_quote n <> ""%string.
Proof.
  split; [apply line_number_is_decimal |].
  split.
  { split; intros H; [| now subst].
    pose proof (line_number_is_decimal m) as Hm.
    pose proof (line_number_is_decimal n) as Hn.
    rewrite H in Hm. congruence. }
  split; [apply plain_debug_quote |].
  intros H. pose proof (line_number_is_decimal n) as Hn.
  rewrite H in Hn. discriminate.
Qed.

(** ** The line, from a file with a plain name *)

(** X2. From a source file whose name holds no [%], a call that passes the
    gate adds to its destination exactly
    [<file> <line> <function>: <message>\n], the message whole whatever its
    length; the destination is the explicit one, the standard error stream
    for a null one, and for the implicit forms [debug_stream] or, when that
    is null, the standard error stream. *)
Theorem plain_file_name_gives_specified_line {U} (here : call_site)
    (lv : cint) (file : FILE_ptr) (s fmt message : string) (args : list carg)
    (w : world U) :
  plain (__FILE__ here) = true ->
  format fmt args = Some message ->
  Enabled.DEBUG_CHECK_LEVEL lv (debug_level w) = true ->
  let explicit := destination file in
  let implicit := destination (debug_stream w) in
  bytes_on explicit (Enabled.fdebugl here (lit lv) (lit file) (lit s)) w
  = Some (output_on explicit (trace w) ++ diagnostic_line here s)%string
  /\ bytes_on explicit
       (Enabled.fdebuglf here (lit lv) (lit file) (lit fmt) (map lit args)) w
     = Some (output_on explicit (trace w) ++ diagnostic_line here message)%string
  /\ bytes_on implicit (Enabled.debugl here (lit lv) (lit s)) w
     = Some (output_on implicit (trace w) ++ diagnostic_line here s)%string
  /\ bytes_on implicit
       (Enabled.debuglf here (lit lv) (lit fmt) (map lit args)) w
     = Some (output_on implicit (trace w) ++ diagnostic_line here message)%string.
Proof.
  intros Hp Hf Hgate explicit implicit.
  destruct (emitted_line_has_specified_shape here lv file s fmt message args w
              Hp Hf Hgate) as [E1 E2].
  split; [exact E1 |]. split; [exact E2 |].
  assert (Himplicit : forall text : string,
             bytes_on implicit
               (Enabled.fdebugl here (lit lv) var_debug_stream (lit text)) w
             = Some (output_on implicit (trace w)
                     ++ diagnostic_line here text)%string).
  { intros text. unfold bytes_on.
    rewrite (fdebugl_passed here (lit lv) var_debug_stream (lit text) w Hp
               Hgate).
    cbn [option_map snd fst lit var_debug_stream].
    now rewrite output_after_flush, output_after_write. }
  split.
  - apply Himplicit.
  - unfold Enabled.debuglf.
    rewrite <- (literal_and_format_agree here (lit lv) var_debug_stream message
                  fmt args w implicit Hf).
    apply Himplicit.
Qed.

Lemma plain_file_name_gives_specified_line_witness :
  let w := sample_world (Some stdout) 3 0 in
  let lv := Cint Tint 2 in
  bytes_on stderr
    (Enabled.fdebugl sample_site (lit lv) (lit NULL) (lit "hello"%string)) w
  = Some ("" ++ diagnostic_line sample_site "hello")%string
  /\ bytes_on stderr
       (Enabled.fdebuglf sample_site (lit lv) (lit NULL)
          (lit "count=%d"%string) (map lit [AInt 7])) w
     = Some ("" ++ diagnostic_line sample_site "count=7")%string
  /\ bytes_on stdout (Enabled.debugl sample_site (lit lv) (lit "hello"%string)) w
     = Some ("" ++ diagnostic_line sample_site "hello")%string
  /\ bytes_on stdout
       (Enabled.debuglf sample_site (lit lv) (lit "count=%d"%string)
          (map lit [AInt 7])) w
     = Some ("" ++ diagnostic_line sample_site "count=7")%string.
Proof.
  apply (plain_file_name_gives_specified_line sample_site (Cint Tint 2) NULL
           "hello" "count=%d" "count=7" [AInt 7]
           (sample_world (Some stdout) 3 0)).
  - reflexivity.
  - reflexivity.
  - reflexivity.
Defined.

(** ** The threshold *)

Lemma gate_monotone (lv : cint) (T T' : Z) :
  representable lv ->
  0 <= T <= T' ->
  T' <= max_of Tuint ->
  Enabled.DEBUG_CHECK_LEVEL lv T = true ->
  Enabled.DEBUG_CHECK_LEVEL lv T' = true.
Proof.
  intros Hl HT HT' Hgate.
  apply DEBUG_CHECK_LEVEL_spec in Hgate; [| assumption | lia].
  apply DEBUG_CHECK_LEVEL_spec; [assumption | lia |].
  unfold shouldEmit in *. lia.
Qed.

(** X3. A bigger [debug_level] is more verbose and nothing else: a call
    that emits at one threshold emits at every higher one, and leaves the
    same bytes on every stream there. *)
Theorem raising_the_threshold_keeps_every_line {U} (here : call_site)
    (lv : cint) (file : FILE_ptr) (s fmt : string) (args : list carg)
    (default : FILE_ptr) (T T' : Z) (u : U) (t : list event) (d : stream) :
  representable lv ->
  0 <= T <= T' ->
  T' <= max_of Tuint ->
  let low := World default T u t in
  let high := World default T' u t in
  let literal := Enabled.fdebugl here (lit lv) (lit file) (lit s) in
  let formatted :=
    Enabled.fdebuglf here (lit lv) (lit file) (lit fmt) (map lit args) in
  (emits literal low ->
   emits literal high /\ bytes_on d literal high = bytes_on d literal low)
  /\ (emits formatted low ->
      emits formatted high
      /\ bytes_on d formatted high = bytes_on d formatted low).
Proof.
  intros Hl HT HT' low high literal formatted.
  split; intros (wl & d0 & Hrun & Hchanged).
  - unfold literal in *. rewrite fdebugl_run in Hrun.
    cbn [lit low debug_level] in Hrun.
    destruct (Enabled.DEBUG_CHECK_LEVEL lv T) eqn:Hgate.
    + pose proof (gate_monotone lv T T' Hl HT HT' Hgate) as Hgate'.
      destruct (format _ [AStr (FUNCTION here); AStr s]) as [bytes |] eqn:Hf;
        [| discriminate].
      assert (Ewl : wl = record (Flushed (destination file))
                           (record (Wrote (destination file) bytes) low))
        by congruence.
      subst wl.
      assert (Hhigh : Enabled.fdebugl here (lit lv) (lit file) (lit s) high
                      = Some (tt, record (Flushed (destination file))
                                    (record (Wrote (destination file) bytes)
                                       high))).
      { rewrite fdebugl_run. cbn [lit high debug_level].
        now rewrite Hgate', Hf. }
      split.
      * exists (record (Flushed (destination file))
                  (record (Wrote (destination file) bytes) high)), d0.
        split; [exact Hhigh | exact Hchanged].
      * unfold bytes_on. rewrite Hhigh, fdebugl_run.
        cbn [lit low debug_level]. now rewrite Hgate, Hf.
    + exfalso. apply Hchanged. congruence.
  - unfold formatted in *. rewrite fdebuglf_run in Hrun.
    cbn [lit low debug_level] in Hrun.
    destruct (Enabled.DEBUG_CHECK_LEVEL lv T) eqn:Hgate.
    + pose proof (gate_monotone lv T T' Hl HT HT' Hgate) as Hgate'.
      destruct (format _ [AStr (FUNCTION here)]) as [prefix |] eqn:Hp;
        [| discriminate].
      destruct (format fmt args) as [message |] eqn:Hf; [| discriminate].
      assert (Ewl : wl = record (Flushed (destination file))
                           (record (Wrote (destination file) (String "010" ""))
                              (record (Wrote (destination file) message)
                                 (record (Wrote (destination file) prefix)
                                    low))))
        by congruence.
      subst wl.
      assert (Hhigh : Enabled.fdebuglf here (lit lv) (lit file) (lit fmt)
                        (map lit args) high
                      = Some (tt, record (Flushed (destination file))
                                    (record (Wrote (destination file)
                                               (String "010" ""))
                                       (record (Wrote (destination file) message)
                                          (record (Wrote (destination file)
                                                     prefix) high))))).
      { rewrite fdebuglf_run. cbn [lit high debug_level].
        now rewrite Hgate', Hp, Hf. }
      split.
      * eexists _, d0. split; [exact Hhigh | exact Hchanged].
      * unfold bytes_on. rewrite Hhigh, fdebuglf_run.
        cbn [lit low debug_level]. now rewrite Hgate, Hp, Hf.
    + exfalso. apply Hchanged. congruence.
Qed.

(** Level 2, thresholds 2 and 7. *)
Lemma raising_the_threshold_keeps_every_line_witness :
  let low := World NULL 2 0 [] in
  let high := World NULL 7 0 [] in
  let literal :=
    Enabled.fdebugl sample_site (lit (Cint Tint 2)) (lit NULL)
      (lit "hello"%string) in
  let formatted :=
    Enabled.fdebuglf sample_site (lit (Cint Tint 2)) (lit NULL)
      (lit "count=%d"%string) (map lit [AInt 7]) in
  (emits literal high /\ bytes_on stderr literal high = bytes_on stderr literal low)
  /\ (emits formatted high
      /\ bytes_on stderr formatted high = bytes_on stderr formatted low).
Proof.
  destruct (raising_the_threshold_keeps_every_line sample_site (Cint Tint 2)
              NULL "hello" "count=%d" [AInt 7] NULL 2 7 0 [] stderr)
    as [Hliteral Hformatted].
  - unfold representable, min_of, max_of; simpl; lia.
  - lia.
  - unfold max_of; simpl; lia.
  - split.
    + apply Hliteral. eexists _, stderr.
      split; [vm_compute; reflexivity | vm_compute; discriminate].
    + apply Hformatted. eexists _, stderr.
      split; [vm_compute; reflexivity | vm_compute; discriminate].
Defined.

(** X4. A negative build-time [DEBUG_LEVEL] does not switch the output
    off: the cast to [unsigned int] turns [d] into [2^32 + d], so every
    level from 1 to [2^32 + d] passes the gate at process start (with
    [-DDEBUG_LEVEL=-1], every positive level an [unsigned int] can hold),
    while a level that is zero or negative still does not. *)
Theorem negative_DEBUG_LEVEL_is_a_high_threshold (d : Z) (lv : cint) :
  - 2 ^ 32 < d < 0 ->
  representable lv ->
  initial_debug_level (Some d) = 2 ^ 32 + d
  /\ (0 < value_of lv <= 2 ^ 32 + d ->
      Enabled.DEBUG_CHECK_LEVEL lv (initial_debug_level (Some d)) = true)
  /\ (value_of lv <= 0 ->
      Enabled.DEBUG_CHECK_LEVEL lv (initial_debug_level (Some d)) = false).
Proof.
  intros Hd Hl.
  assert (E : initial_debug_level (Some d) = 2 ^ 32 + d).
  { change (d mod 2 ^ 32 = 2 ^ 32 + d).
    rewrite <- (Z.mod_small (2 ^ 32 + d) (2 ^ 32)) by lia.
    rewrite <- (Z_mod_plus_full d 1 (2 ^ 32)). f_equal. lia. }
  rewrite E.
  assert (Hrange : 0 <= 2 ^ 32 + d <= max_of Tuint).
  { change (max_of Tuint) with (2 ^ 32 - 1). lia. }
  split; [reflexivity |]. split; intros H.
  - apply DEBUG_CHECK_LEVEL_spec; [assumption | assumption |].
    unfold shouldEmit. lia.
  - apply DEBUG_CHECK_LEVEL_false; [assumption | assumption |].
    unfold shouldEmit. lia.
Qed.

(** [-DDEBUG_LEVEL=-1] and the level [4294967295u]. *)
Lemma negative_DEBUG_LEVEL_is_a_high_threshold_witness :
  initial_debug_level (Some (-1)) = 2 ^ 32 + -1
  /\ Enabled.DEBUG_CHECK_LEVEL (Cint Tuint 4294967295)
       (initial_debug_level (Some (-1))) = true.
Proof.
  destruct (negative_DEBUG_LEVEL_is_a_high_threshold (-1)
              (Cint Tuint 4294967295)) as (H1 & H2 & _).
  - lia.
  - unfold representable, min_of, max_of; simpl; lia.
  - split; [exact H1 | apply H2; simpl; lia].
Defined.

(** ** No null stream reaches stdio *)

(** X5. [fdebugl] and [fdebuglf] never hand a null stream to [fprintf] or
    to [fflush].  Whatever the destination argument is, null included, a
    call whose level passes the gate and whose formats [fprintf] carries out
    (the file name may hold [%%]) completes; [DEBUG_CHECK_FILE] has turned
    the argument into a stream [d] that is not null, the argument itself or
    the standard error stream, and checking it again changes nothing; every
    write goes to [d] and the flush is a flush of [d], not the flush of all
    streams that [fflush (NULL)] is. *)
Theorem no_null_stream_reaches_stdio {U} (here : call_site)
    (level : expr U cint) (file : expr U FILE_ptr) (str : expr U string)
    (fmt : string) (args : list carg) (w : world U)
    (bytes prefix message : string) :
  Enabled.DEBUG_CHECK_LEVEL (fst (level w)) (debug_level (snd (level w))) = true ->
  format (Enabled.LINE_LOCATION here ++ "%s: %s" ++ String "010" "")
         [AStr (FUNCTION here);
          AStr (fst (str (snd (file (snd (level w))))))] = Some bytes ->
  format (Enabled.LINE_LOCATION here ++ "%s: ") [AStr (FUNCTION here)]
  = Some prefix ->
  format fmt args = Some message ->
  let after_level := snd (level w) in
  let f := fst (file after_level) in
  let after_file := snd (file after_level) in
  let d := match f with Some given => given | None => stderr end in
  Enabled.DEBUG_CHECK_FILE f = Some d
  /\ Enabled.DEBUG_CHECK_FILE (Enabled.DEBUG_CHECK_FILE f) = Some d
  /\ Enabled.fdebugl here level file str w
     = Some (tt, record (Flushed d)
                   (record (Wrote d bytes) (snd (str after_file))))
  /\ Enabled.fdebuglf here level file (lit fmt) (map lit args) w
     = Some (tt, record (Flushed d)
                   (record (Wrote d (String "010" ""))
                      (record (Wrote d message)
                         (record (Wrote d prefix) after_file)))).
Proof.
  intros Hgate Hbytes Hprefix Hmessage after_level f after_file d.
  subst d after_file f after_level.
  rewrite fdebugl_run, fdebuglf_run.
  destruct (level w) as [lv w1]. cbn [fst snd] in *. rewrite Hgate.
  destruct (file w1) as [f w2]. cbn [fst snd] in *.
  destruct (str w2) as [s w3]. cbn [fst snd] in *.
  rewrite Hbytes, Hprefix, Hmessage.
  destruct f as [given |]; repeat split.
Qed.

(** A null destination, in a file named [a%%b.c]. *)
Lemma no_null_stream_reaches_stdio_witness :
  let here := Site "a%%b.c" 42 "run" in
  let w := sample_world (Some stdout) 1 0 in
  Enabled.DEBUG_CHECK_FILE NULL = Some stderr
  /\ Enabled.DEBUG_CHECK_FILE (Enabled.DEBUG_CHECK_FILE NULL) = Some stderr
  /\ Enabled.fdebugl here (lit (Cint Tint 1)) (lit NULL) (lit "hello"%string) w
     = Some (tt, record (Flushed stderr)
                   (record (Wrote stderr
                              ("a%b.c 42 run: hello" ++ String "010" ""))
                      w))
  /\ Enabled.fdebuglf here (lit (Cint Tint 1)) (lit NULL)
       (lit "count=%d"%string) (map lit [AInt 7]) w
     = Some (tt, record (Flushed stderr)
                   (record (Wrote stderr (String "010" ""))
                      (record (Wrote stderr "count=7")
                         (record (Wrote stderr "a%b.c 42 run: ") w)))).
Proof.
  apply (no_null_stream_reaches_stdio (Site "a%%b.c" 42 "run")
           (lit (Cint Tint 1)) (lit NULL) (lit "hello"%string) "count=%d"
           [AInt 7] (sample_world (Some stdout) 1 0)
           ("a%b.c 42 run: hello" ++ String "010" "") "a%b.c 42 run: "
           "count=7").
  - reflexivity.
  - reflexivity.
  - reflexivity.
  - reflexivity.
Defined.

(** ** Payloads that print *)

(** X6. A payload expression that itself writes to the destination is seen
    differently by the two families.  [fdebugl] evaluates the message
    before its single [fprintf], so what the payload printed comes before
    the whole line.  [fdebuglf] has written the location prefix when it
    evaluates its arguments, so what an argument printed lands inside the
    line, between the prefix and the message. *)
Theorem payload_output_before_or_inside_the_line {U} (here : call_site)
    (lv : cint) (file : FILE_ptr) (printed s : string) (w : world U) :
  plain (__FILE__ here) = true ->
  Enabled.DEBUG_CHECK_LEVEL lv (debug_level w) = true ->
  let d := destination file in
  bytes_on d
    (Enabled.fdebugl here (lit lv) (lit file) (printing d printed s)) w
  = Some (output_on d (trace w) ++ printed ++ diagnostic_line here s)%string
  /\ bytes_on d
       (Enabled.fdebuglf here (lit lv) (lit file) (lit "%s"%string)
          [printing d printed (AStr s)]) w
     = Some (output_on d (trace w)
             ++ (Enabled.LINE_LOCATION here ++ FUNCTION here ++ ": ")
             ++ printed ++ s ++ String "010" "")%string.
Proof.
  intros Hp Hgate d. split.
  - unfold bytes_on.
    rewrite (fdebugl_passed here (lit lv) (lit file) (printing d printed s) w
               Hp Hgate).
    cbn [option_map snd fst lit printing].
    now rewrite output_after_flush, !output_after_write, append_assoc.
  - unfold bytes_on, Enabled.fdebuglf, bind, eval, ret, var_debug_level.
    cbn [lit]. rewrite Hgate. unfold fprintf at 1.
    rewrite (format_location_prefix here Hp).
    destruct file as [f |];
      cbn [Enabled.DEBUG_CHECK_FILE Enabled.DEBUG_DEFAULT_STREAM destination
             eval_all bind eval ret printing fprintf fflush format option_map
             snd] in *;
      cbn -[record output_on append Enabled.LINE_LOCATION trace]; subst d;
      rewrite output_after_flush, !output_after_write, append_empty_r,
        !append_assoc; reflexivity.
Qed.

Lemma payload_output_before_or_inside_the_line_witness :
  let w := sample_world NULL 1 0 in
  bytes_on stderr
    (Enabled.fdebugl sample_site (lit (Cint Tint 1)) (lit NULL)
       (printing stderr "working " "done"%string)) w
  = Some ("" ++ "working " ++ diagnostic_line sample_site "done")%string
  /\ bytes_on stderr
       (Enabled.fdebuglf sample_site (lit (Cint Tint 1)) (lit NULL)
          (lit "%s"%string) [printing stderr "working " (AStr "done")]) w
     = Some ("" ++ (Enabled.LINE_LOCATION sample_site
                    ++ FUNCTION sample_site ++ ": ")
             ++ "working " ++ "done" ++ String "010" "")%string.
Proof.
  apply (payload_output_before_or_inside_the_line sample_site (Cint Tint 1)
           NULL "working " "done" (sample_world NULL 1 0)).
  - reflexivity.
  - reflexivity.
Defined.

(** ** Calls in sequence *)

(** X7. Two calls that pass the gate, one after the other, to the same
    destination: the destination receives the first line, is flushed,
    receives the second line and is flushed again, so the lines appear whole
    and in the order of the calls. *)
Theorem consecutive_calls_append_their_lines {U} (first second : call_site)
    (lv1 lv2 : cint) (file : FILE_ptr) (s1 s2 : string) (w : world U) :
  plain (__FILE__ first) = true ->
  plain (__FILE__ second) = true ->
  Enabled.DEBUG_CHECK_LEVEL lv1 (debug_level w) = true ->
  Enabled.DEBUG_CHECK_LEVEL lv2 (debug_level w) = true ->
  let d := destination file in
  let both :=
    bind (Enabled.fdebugl first (lit lv1) (lit file) (lit s1))
         (fun _ => Enabled.fdebugl second (lit lv2) (lit file) (lit s2)) in
  both w
  = Some (tt, World (debug_stream w) (debug_level w) (caller w)
                (trace w ++ [Wrote d (diagnostic_line first s1); Flushed d;
                             Wrote d (diagnostic_line second s2); Flushed d]))
  /\ bytes_on d both w
     = Some (output_on d (trace w) ++ diagnostic_line first s1
             ++ diagnostic_line second s2)%string.
Proof.
  intros Hp1 Hp2 Hg1 Hg2 d both.
  assert (Hrun : both w
                 = Some (tt, World (debug_stream w) (debug_level w) (caller w)
                               (trace w ++ [Wrote d (diagnostic_line first s1);
                                            Flushed d;
                                            Wrote d (diagnostic_line second s2);
                                            Flushed d]))).
  { unfold both, bind.
    rewrite (fdebugl_passed first (lit lv1) (lit file) (lit s1) w Hp1 Hg1).
    cbn [lit fst snd].
    rewrite (fdebugl_passed second (lit lv2) (lit file) (lit s2)
               (record (Flushed (destination file))
                  (record (Wrote (destination file)
                             (diagnostic_line first s1)) w)) Hp2 Hg2).
    cbn [lit fst snd]. unfold record. cbn [debug_stream debug_level caller trace].
    now rewrite <- !app_assoc. }
  split; [exact Hrun |].
  unfold bytes_on. rewrite Hrun. cbn [option_map snd trace].
  rewrite output_on_app. cbn [output_on]. fold d.
  now rewrite stream_eqb_refl, append_empty_r.
Qed.

Lemma consecutive_calls_append_their_lines_witness :
  let w := sample_world NULL 1 0 in
  let both :=
    bind (Enabled.fdebugl sample_site (lit (Cint Tint 1)) (lit NULL)
            (lit "one"%string))
         (fun _ => Enabled.fdebugl (Site "util" 7 "helper") (lit (Cint Tint 1))
                     (lit NULL) (lit "two"%string)) in
  both w
  = Some (tt, World NULL 1 0
                ([] ++ [Wrote stderr (diagnostic_line sample_site "one");
                        Flushed stderr;
                        Wrote stderr
                          (diagnostic_line (Site "util" 7 "helper") "two");
                        Flushed stderr]))
  /\ bytes_on stderr both w
     = Some ("" ++ diagnostic_line sample_site "one"
             ++ diagnostic_line (Site "util" 7 "helper") "two")%string.
Proof.
  apply (consecutive_calls_append_their_lines sample_site
           (Site "util" 7 "helper") (Cint Tint 1) (Cint Tint 1) NULL
           "one" "two" (sample_world NULL 1 0)).
  - reflexivity.
  - reflexivity.
  - reflexivity.
  - reflexivity.
Defined.

(** ** The message can be told from the line *)

Lemma append_cancel_l (a b c : string) :
  (a ++ b)%string = (a ++ c)%string -> b = c.
Proof.
  induction a as [| x a IH]; simpl; intros H; [exact H |].
  injection H as H. auto.
Qed.

Lemma append_cancel_last (x : ascii) (a b : string) :
  (a ++ String x "")%string = (b ++ String x "")%string -> a = b.
Proof.
  revert b. induction a as [| y a IH]; intros [| z b]; simpl; intros H.
  - reflexivity.
  - injection H as _ H. destruct b; discriminate.
  - injection H as _ H. destruct a; discriminate.
  - injection H as -> H. f_equal. auto.
Qed.

(** X8. From one call site, calls with different messages leave different
    bytes on the destination, and calls with the same message the same
    bytes: the line determines the message. *)
Theorem line_determines_the_message {U} (here : call_site) (lv : cint)
    (file : FILE_ptr) (s1 s2 : string) (w : world U) :
  plain (__FILE__ here) = true ->
  Enabled.DEBUG_CHECK_LEVEL lv (debug_level w) = true ->
  let d := destination file in
  bytes_on d (Enabled.fdebugl here (lit lv) (lit file) (lit s1)) w
  = bytes_on d (Enabled.fdebugl here (lit lv) (lit file) (lit s2)) w
  <-> s1 = s2.
Proof.
  intros Hp Hgate d. split; [| now intros ->].
  unfold bytes_on.
  rewrite (fdebugl_passed here (lit lv) (lit file) (lit s1) w Hp Hgate).
  rewrite (fdebugl_passed here (lit lv) (lit file) (lit s2) w Hp Hgate).
  cbn [option_map snd fst lit]. fold d.
  rewrite !output_after_flush, !output_after_write.
  intros H. injection H as H.
  apply append_cancel_l in H. unfold diagnostic_line in H.
  do 6 apply append_cancel_l in H.
  now apply append_cancel_last in H.
Qed.

Lemma line_determines_the_message_witness :
  bytes_on stderr
    (Enabled.fdebugl sample_site (lit (Cint Tint 1)) (lit NULL)
       (lit "hello"%string)) (sample_world NULL 1 0)
  = bytes_on stderr
      (Enabled.fdebugl sample_site (lit (Cint Tint 1)) (lit NULL)
         (lit "hullo"%string)) (sample_world NULL 1 0)
  <-> "hello"%string = "hullo"%string.
Proof.
  apply (line_determines_the_message sample_site (Cint Tint 1) NULL
           "hello" "hullo" (sample_world NULL 1 0)).
  - reflexivity.
  - reflexivity.
Defined.

(** ** The C++ macro *)

Lemma string_not_its_own_tail (x : ascii) (s : string) : String x s <> s.
Proof.
  revert x. induction s as [| y s IH]; intros x H; [discriminate |].
  injection H as _ H. now apply (IH y).
Qed.

Lemma record_onto {U} (e : event) (default : FILE_ptr) (threshold : Z)
    (own : U) (t : list event) :
  record e (World default threshold own t)
  = World default threshold own (t ++ [e]).
Proof.
  reflexivity.
Qed.

Lemma record_more {U} (e : event) (default : FILE_ptr) (threshold : Z)
    (own : U) (t : list event) (e0 : event) (added : list event) :
  record e (World default threshold own (t ++ e0 :: added))
  = World default threshold own (t ++ e0 :: added ++ [e]).
Proof.
  unfold record. cbn [debug_stream debug_level caller trace].
  now rewrite <- app_assoc.
Qed.

(** What [debug_cpp] asks of the two streams after the process's earlier
    trace: each [<<] on [std::cerr] flushes the tied [std::cout], writes,
    and flushes [std::cerr]; [std::endl] flushes once more, and the macro
    ends with its own flush of [std::cout]. *)
Lemma debug_cpp_run {U} (here : call_site) (s : string) (w : world U) :
  Cplusplus.debug_cpp here (lit s) w
  = Some (tt, World (debug_stream w) (debug_level w) (caller w)
                (trace w
                 ++ [Flushed stdout; Wrote stderr (Enabled.LINE_LOCATION here);
                     Flushed stderr;
                     Flushed stdout; Wrote stderr " "; Flushed stderr;
                     Flushed stdout; Wrote stderr (FUNCTION here);
                     Flushed stderr;
                     Flushed stdout; Wrote stderr ": "; Flushed stderr;
                     Flushed stdout; Wrote stderr s; Flushed stderr;
                     Flushed stdout; Wrote stderr (String "010" "");
                     Flushed stderr;
                     Flushed stderr; Flushed stdout])).
Proof.
  destruct w as [default threshold own t].
  cbv beta iota zeta
      delta [Cplusplus.debug_cpp endl bind inserted flushed eval lit tie
             unitbuf].
  cbn [debug_stream debug_level caller trace].
  rewrite (record_onto _ default threshold own t).
  rewrite !record_more. reflexivity.
Qed.

(** X9. [debug_cpp] has no gate and no destination argument: whatever
    [debug_level] and [debug_stream] hold, also with the threshold at 0, it
    completes, leaves the two globals and the caller's state alone, and
    writes its line to the standard error stream.  It writes to no other
    stream; the only other thing it asks of stdio is to flush the standard
    error stream and the standard output stream, and the last thing it does
    is its own flush of the standard output stream.  The file name is
    inserted as text, so all this holds for every file name, one with [%]
    included. *)
Theorem debug_cpp_is_ungated_and_bound_to_stderr {U} (here : call_site)
    (s : string) (w : world U) (d : stream) :
  let line :=
    (Enabled.LINE_LOCATION here ++ " " ++ FUNCTION here ++ ": " ++ s
     ++ String "010" "")%string in
  (exists added,
      Cplusplus.debug_cpp here (lit s) w
      = Some (tt, World (debug_stream w) (debug_level w) (caller w)
                    (trace w ++ added))
      /\ Forall (fun e => (exists bytes, e = Wrote stderr bytes)
                          \/ e = Flushed stderr \/ e = Flushed stdout) added
      /\ exists before, added = before ++ [Flushed stdout])
  /\ bytes_on stderr (Cplusplus.debug_cpp here (lit s)) w
     = Some (output_on stderr (trace w) ++ line)%string
  /\ (stream_eqb d stderr = false ->
      bytes_on d (Cplusplus.debug_cpp here (lit s)) w
      = Some (output_on d (trace w)))
  /\ emits (Cplusplus.debug_cpp here (lit s)) w.
Proof.
  intros line.
  pose proof (debug_cpp_run here s w) as Hrun.
  assert (Hbytes : bytes_on stderr (Cplusplus.debug_cpp here (lit s)) w
                   = Some (output_on stderr (trace w) ++ line)%string).
  { unfold bytes_on. rewrite Hrun. cbn [option_map snd trace].
    rewrite output_on_app. cbn [output_on stream_eqb].
    unfold line. reflexivity. }
  split.
  { eexists. split; [exact Hrun |]. split.
    - repeat (apply Forall_cons;
              [first [ left; eexists; reflexivity
                     | right; left; reflexivity
                     | right; right; reflexivity ] |]).
      apply Forall_nil.
    - eexists (_ :: _ :: _ :: _ :: _ :: _ :: _ :: _ :: _ :: _ :: _ :: _ :: _
               :: _ :: _ :: _ :: _ :: _ :: _ :: []).
      reflexivity. }
  split; [exact Hbytes |]. split.
  - intros Hd. unfold bytes_on. rewrite Hrun. cbn [option_map snd trace].
    rewrite output_on_app. cbn [output_on]. rewrite Hd.
    destruct d; try discriminate; cbn [stream_eqb];
      now rewrite append_empty_r.
  - unfold bytes_on in Hbytes. rewrite Hrun in Hbytes.
    eexists _, stderr. split; [exact Hrun |].
    cbn [option_map snd trace] in Hbytes. injection Hbytes as Hbytes.
    cbn [trace]. rewrite Hbytes. intros H. apply append_same_l in H.
    unfold line in H. apply append_empty in H. discriminate.
Qed.

(** X10. The C++ macro does not print the line of the C macros: it puts a
    space of its own after [LINE_LOCATION], which already ends with one, so
    its line has two spaces before the function name, and its output is
    never that of [fdebugl] for the same call site and message. *)
Theorem debug_cpp_line_has_a_second_space {U} (here : call_site) (lv : cint)
    (s : string) (w : world U) :
  plain (__FILE__ here) = true ->
  Enabled.DEBUG_CHECK_LEVEL lv (debug_level w) = true ->
  let out := output_on stderr (trace w) in
  let rest := (FUNCTION here ++ ": " ++ s ++ String "010" "")%string in
  bytes_on stderr (Enabled.fdebugl here (lit lv) (lit NULL) (lit s)) w
  = Some (out ++ Enabled.LINE_LOCATION here ++ rest)%string
  /\ bytes_on stderr (Cplusplus.debug_cpp here (lit s)) w
     = Some (out ++ Enabled.LINE_LOCATION here ++ " " ++ rest)%string
  /\ bytes_on stderr (Cplusplus.debug_cpp here (lit s)) w
     <> bytes_on stderr (Enabled.fdebugl here (lit lv) (lit NULL) (lit s)) w.
Proof.
  intros Hp Hgate out rest.
  assert (Hc : bytes_on stderr
                 (Enabled.fdebugl here (lit lv) (lit NULL) (lit s)) w
               = Some (out ++ Enabled.LINE_LOCATION here ++ rest)%string).
  { unfold bytes_on.
    rewrite (fdebugl_passed here (lit lv) (lit NULL) (lit s) w Hp Hgate).
    cbn [option_map snd fst lit destination].
    rewrite output_after_flush, output_after_write.
    unfold diagnostic_line, Enabled.LINE_LOCATION, rest, out.
    now rewrite !append_assoc. }
  assert (Hcpp : bytes_on stderr (Cplusplus.debug_cpp here (lit s)) w
                 = Some (out ++ Enabled.LINE_LOCATION here ++ " " ++ rest)%string).
  { unfold bytes_on. rewrite (debug_cpp_run here s w).
    cbn [option_map snd trace].
    rewrite output_on_app. cbn [output_on stream_eqb].
    unfold rest, out. reflexivity. }
  split; [exact Hc |]. split; [exact Hcpp |].
  rewrite Hc, Hcpp. intros H. injection H as H.
  do 2 apply append_cancel_l in H.
  now apply string_not_its_own_tail in H.
Qed.

Lemma debug_cpp_line_has_a_second_space_witness :
  let w := sample_world NULL 1 0 in
  bytes_on stderr
    (Enabled.fdebugl sample_site (lit (Cint Tint 1)) (lit NULL)
       (lit "hello"%string)) w
  = Some ("" ++ Enabled.LINE_LOCATION sample_site
          ++ FUNCTION sample_site ++ ": " ++ "hello" ++ String "010" "")%string
  /\ bytes_on stderr (Cplusplus.debug_cpp sample_site (lit "hello"%string)) w
     = Some ("" ++ Enabled.LINE_LOCATION sample_site ++ " "
             ++ FUNCTION sample_site ++ ": " ++ "hello" ++ String "010" "")%string
  /\ bytes_on stderr (Cplusplus.debug_cpp sample_site (lit "hello"%string)) w
     <> bytes_on stderr
          (Enabled.fdebugl sample_site (lit (Cint Tint 1)) (lit NULL)
             (lit "hello"%string)) w.
Proof.
  apply (debug_cpp_line_has_a_second_space sample_site (Cint Tint 1) "hello"
           (sample_world NULL 1 0)).
  - reflexivity.
  - reflexivity.
Defined.

(** ** Switched off at run time and compiled out *)

(** X11. With [debug_level] at 0, the enabled macros with a fixed level
    ([debug], [fdebug], [debugf], [fdebugf]) do what the disabled ones do:
    nothing, whatever their arguments.  The forms with a level argument
    differ from the disabled ones in one respect: the level expression is
    still evaluated, so they agree with them exactly when that expression
    has no effect. *)
Theorem threshold_zero_against_compiled_out {U} (here : call_site)
    (level : expr U cint) (file : expr U FILE_ptr) (str fmt : expr U string)
    (args : list (expr U carg)) (w : world U) :
  representable (fst (level w)) ->
  debug_level w = 0 ->
  debug_level (snd (level w)) = 0 ->
  let va_args := dropped fmt :: map dropped args in
  Enabled.debug here str w = Disabled.debug here str w
  /\ Enabled.fdebug here file str w = Disabled.fdebug here file str w
  /\ Enabled.debugf here fmt args w = Disabled.debugf here va_args w
  /\ Enabled.fdebugf here file fmt args w
     = Disabled.fdebugf here file va_args w
  /\ (Enabled.debugl here level str w = Disabled.debugl here level str w
      <-> snd (level w) = w)
  /\ (Enabled.debuglf here level fmt args w
      = Disabled.debuglf here (dropped level :: va_args) w
      <-> snd (level w) = w)
  /\ (Enabled.fdebuglf here level file fmt args w
      = Disabled.fdebuglf here (dropped level :: dropped file :: va_args) w
      <-> snd (level w) = w).
Proof.
  intros Hl H0 H1 va_args.
  assert (Hone : Enabled.DEBUG_CHECK_LEVEL (Cint Tint 1) (debug_level w) = false)
    by now rewrite H0.
  assert (Hgate : Enabled.DEBUG_CHECK_LEVEL (fst (level w))
                    (debug_level (snd (level w))) = false).
  { apply DEBUG_CHECK_LEVEL_false; [assumption | | ].
    - rewrite H1. unfold max_of; simpl; lia.
    - rewrite H1. unfold shouldEmit. lia. }
  unfold Disabled.debug, Disabled.fdebug, Disabled.debugf, Disabled.fdebugf,
    Disabled.debugl, Disabled.debuglf, Disabled.fdebuglf, ret.
  split; [apply (fdebugl_blocked here (lit (Cint Tint 1)) _ _ w Hone) |].
  split; [apply (fdebugl_blocked here (lit (Cint Tint 1)) _ _ w Hone) |].
  split; [apply (fdebuglf_blocked here (lit (Cint Tint 1)) _ _ _ w Hone) |].
  split; [apply (fdebuglf_blocked here (lit (Cint Tint 1)) _ _ _ w Hone) |].
  unfold Enabled.debugl, Enabled.debuglf.
  rewrite (fdebugl_blocked here level var_debug_stream str w Hgate).
  rewrite (fdebuglf_blocked here level var_debug_stream fmt args w Hgate).
  rewrite (fdebuglf_blocked here level file fmt args w Hgate).
  repeat split; intros H; congruence.
Qed.

(** A level expression without effect, and a payload with one. *)
Lemma threshold_zero_against_compiled_out_witness :
  let w := sample_world NULL 0 0 in
  let level := lit (Cint Tint 1) in
  let file := counting (Some stdout) in
  let str := counting "tick"%string in
  let args := [counting (AInt 7)] in
  let va_args := dropped str :: map dropped args in
  Enabled.debug sample_site str w = Disabled.debug sample_site str w
  /\ Enabled.fdebug sample_site file str w
     = Disabled.fdebug sample_site file str w
  /\ Enabled.debugf sample_site str args w
     = Disabled.debugf sample_site va_args w
  /\ Enabled.fdebugf sample_site file str args w
     = Disabled.fdebugf sample_site file va_args w
  /\ (Enabled.debugl sample_site level str w
      = Disabled.debugl sample_site level str w
      <-> snd (level w) = w)
  /\ (Enabled.debuglf sample_site level str args w
      = Disabled.debuglf sample_site (dropped level :: va_args) w
      <-> snd (level w) = w)
  /\ (Enabled.fdebuglf sample_site level file str args w
      = Disabled.fdebuglf sample_site
          (dropped level :: dropped file :: va_args) w
      <-> snd (level w) = w).
Proof.
  apply (threshold_zero_against_compiled_out sample_site (lit (Cint Tint 1))
           (counting (Some stdout)) (counting "tick"%string)
           (counting "tick"%string) [counting (AInt 7)]
           (sample_world NULL 0 0)).
  - unfold representable, min_of, max_of; simpl; lia.
  - reflexivity.
  - reflexivity.
Defined.

(** ** Each argument once *)

(** X12. The temporaries [DEBUG_LEVEL_TEMP] and [DEBUG_FILE] make
    [fdebugl] evaluate each argument expression once: from a file with a
    plain name the call completes, and the caller's state is then the one
    the level expression left when the gate stops the call, and otherwise
    the one obtained by running the level, then the destination, then the
    message, each a single time. *)
Theorem arguments_are_evaluated_once_in_order {U} (here : call_site)
    (level : expr U cint) (file : expr U FILE_ptr) (str : expr U string)
    (w : world U) :
  plain (__FILE__ here) = true ->
  let after_level := snd (level w) in
  let after_all := snd (str (snd (file after_level))) in
  exists w',
    Enabled.fdebugl here level file str w = Some (tt, w')
    /\ caller w'
       = caller (if Enabled.DEBUG_CHECK_LEVEL (fst (level w))
                      (debug_level after_level)
                 then after_all else after_level).
Proof.
  intros Hp after_level after_all.
  destruct (Enabled.DEBUG_CHECK_LEVEL (fst (level w))
              (debug_level after_level)) eqn:Hgate.
  - eexists. split; [apply (fdebugl_passed here level file str w Hp Hgate) |].
    reflexivity.
  - eexists. split; [apply (fdebugl_blocked here level file str w Hgate) |].
    reflexivity.
Qed.

(** Three arguments that each step the counter: it ends at 3. *)
Lemma arguments_are_evaluated_once_in_order_witness :
  exists w',
    Enabled.fdebugl sample_site (counting (Cint Tint 1)) (counting NULL)
      (counting "tick"%string) (sample_world NULL 1 0) = Some (tt, w')
    /\ caller w' = 3.
Proof.
  apply (arguments_are_evaluated_once_in_order sample_site
           (counting (Cint Tint 1)) (counting NULL) (counting "tick"%string)
           (sample_world NULL 1 0)).
  reflexivity.
Defined.

(** ** The function name the toolchain gives *)

(** X13. Compiled as C, the header takes [__PRETTY_FUNCTION__] for
    [FUNCTION] exactly from GCC 2.4 on, and every such compiler also gets
    the branch of [DEBUG_CHECK_LEVEL] that uses [__typeof__]; GCC 2.0 to 2.3
    are the compilers that get that branch with an empty [FUNCTION].
    Compiled as C++, the version is not looked at: every compiler that
    defines [__GNUC__] gets [__PRETTY_FUNCTION__]. *)
Theorem FUNCTION_by_toolchain (major minor : Z) :
  let c := Toolchain false (Some (major, minor)) in
  let cpp := Toolchain true (Some (major, minor)) in
  (FUNCTION_choice c = PRETTY_FUNCTION
   <-> 2 < major \/ (major = 2 /\ 4 <= minor))
  /\ (FUNCTION_choice c = PRETTY_FUNCTION ->
      DEBUG_CHECK_LEVEL_is_typeof c = true)
  /\ (DEBUG_CHECK_LEVEL_is_typeof c = true /\ FUNCTION_choice c = empty_quote
      <-> major = 2 /\ minor < 4)
  /\ FUNCTION_choice cpp = PRETTY_FUNCTION.
Proof.
  intros c cpp. unfold c, cpp, FUNCTION_choice, DEBUG_CHECK_LEVEL_is_typeof,
    version_test. cbn [cplusplus GNUC].
  destruct (major >=? 3) eqn:E3; destruct (major =? 2) eqn:E2;
    destruct (minor >=? 4) eqn:E4; destruct (major >=? 2) eqn:Eg;
    cbn [orb andb];
    rewrite ?Z.geb_le, ?Z.eqb_eq in *;
    repeat match goal with
           | H : (_ >=? _) = false |- _ =>
               apply Z.geb_leb in H; apply Z.leb_gt in H
           | H : (_ =? _) = false |- _ => apply Z.eqb_neq in H
           end;
    repeat split; intros; try discriminate; try reflexivity; try lia;
    try (destruct H; try discriminate; lia);
    try (destruct H0; try discriminate; lia).
Qed.

(** X14. Where [FUNCTION] is the empty string (C on a GCC from 2.0 to
    2.3), an emitted line has nothing between the line number and the
    colon: it is [<file> <line> : <message>\n]. *)
Theorem empty_FUNCTION_leaves_a_bare_colon {U} (tc : toolchain)
    (source : string) (line : N) (pretty_function func_name : string)
    (lv : cint) (file : FILE_ptr) (s : string) (w : world U) :
  DEBUG_CHECK_LEVEL_is_typeof tc = true ->
  FUNCTION_choice tc = empty_quote ->
  plain source = true ->
  Enabled.DEBUG_CHECK_LEVEL lv (debug_level w) = true ->
  let here := Site source line (FUNCTION_text tc pretty_function func_name) in
  let d := destination file in
  bytes_on d (Enabled.fdebugl here (lit lv) (lit file) (lit s)) w
  = Some (output_on d (trace w) ++ source ++ " "
          ++ Enabled.debug_quote line ++ " : " ++ s ++ String "010" "")%string.
Proof.
  intros _ Hchoice Hp Hgate here d.
  unfold bytes_on.
  rewrite (fdebugl_passed here (lit lv) (lit file) (lit s) w Hp Hgate).
  cbn [option_map snd fst lit]. fold d.
  rewrite output_after_flush, output_after_write.
  unfold diagnostic_line, here, FUNCTION_text. rewrite Hchoice.
  reflexivity.
Qed.

Lemma empty_FUNCTION_leaves_a_bare_colon_witness :
  let tc := Toolchain false (Some (2, 3)) in
  let here := Site "main" 42 (FUNCTION_text tc "int run(void)" "run") in
  bytes_on stderr
    (Enabled.fdebugl here (lit (Cint Tint 1)) (lit NULL) (lit "hello"%string))
    (sample_world NULL 1 0)
  = Some ("" ++ "main" ++ " " ++ Enabled.debug_quote 42 ++ " : " ++ "hello"
          ++ String "010" "")%string.
Proof.
  apply (empty_FUNCTION_leaves_a_bare_colon (Toolchain false (Some (2, 3)))
           "main" 42 "int run(void)" "run" (Cint Tint 1) NULL "hello"
           (sample_world NULL 1 0)).
  - reflexivity.
  - reflexivity.
  - reflexivity.
  - reflexivity.
Defined.

(** ** Nothing but the destination *)

(** X15. A call with arguments that have no side effect touches nothing
    but its destination: when it completes, the two globals and the
    caller's state are as before, and everything it has added to the trace
    is a write to the resolved destination or a flush of it; no other
    stream is written or flushed, and never all streams at once. *)
Theorem only_the_destination_is_touched {U} (here : call_site) (lv : cint)
    (file : FILE_ptr) (s fmt : string) (args : list carg) (w w1 w2 : world U) :
  Enabled.fdebugl here (lit lv) (lit file) (lit s) w = Some (tt, w1) ->
  Enabled.fdebuglf here (lit lv) (lit file) (lit fmt) (map lit args) w
  = Some (tt, w2) ->
  let d := destination file in
  let on_d := fun e => e = Flushed d \/ exists bytes, e = Wrote d bytes in
  (exists added,
      w1 = World (debug_stream w) (debug_level w) (caller w) (trace w ++ added)
      /\ Forall on_d added)
  /\ (exists added,
         w2 = World (debug_stream w) (debug_level w) (caller w)
                (trace w ++ added)
         /\ Forall on_d added).
Proof.
  intros H1 H2 d on_d. subst on_d d.
  rewrite fdebugl_run in H1. rewrite fdebuglf_run in H2. cbn [lit] in H1, H2.
  assert (Hsame : w = World (debug_stream w) (debug_level w) (caller w)
                        (trace w ++ [])).
  { rewrite app_nil_r. now destruct w. }
  destruct (Enabled.DEBUG_CHECK_LEVEL lv (debug_level w)).
  - split.
    + destruct (format _ [AStr (FUNCTION here); AStr s]) as [bytes |];
        [| discriminate].
      exists [Wrote (destination file) bytes; Flushed (destination file)].
      split.
      * assert (E : w1 = record (Flushed (destination file))
                           (record (Wrote (destination file) bytes) w))
          by congruence.
        rewrite E. unfold record. cbn [debug_stream debug_level caller trace].
        now rewrite <- app_assoc.
      * repeat (apply Forall_cons;
                [first [left; reflexivity | right; eexists; reflexivity] |]).
        apply Forall_nil.
    + destruct (format _ [AStr (FUNCTION here)]) as [prefix |];
        [| discriminate].
      destruct (format fmt args) as [message |]; [| discriminate].
      exists [Wrote (destination file) prefix;
              Wrote (destination file) message;
              Wrote (destination file) (String "010" "");
              Flushed (destination file)].
      split.
      * assert (E : w2 = record (Flushed (destination file))
                           (record (Wrote (destination file) (String "010" ""))
                              (record (Wrote (destination file) message)
                                 (record (Wrote (destination file) prefix) w))))
          by congruence.
        rewrite E. unfold record. cbn [debug_stream debug_level caller trace].
        now rewrite <- !app_assoc.
      * repeat (apply Forall_cons;
                [first [left; reflexivity | right; eexists; reflexivity] |]).
        apply Forall_nil.
  - assert (E1 : w = w1) by congruence.
    assert (E2 : w = w2) by congruence.
    split; exists []; (split; [| constructor]).
    + rewrite <- E1. exact Hsame.
    + rewrite <- E2. exact Hsame.
Qed.

Lemma only_the_destination_is_touched_witness :
  let w := sample_world (Some stdout) 1 0 in
  let on_d :=
    fun e => e = Flushed (opened 4) \/ exists bytes, e = Wrote (opened 4) bytes in
  (exists added,
      World (Some stdout) 1 0
        [Wrote (opened 4) (diagnostic_line sample_site "hello");
         Flushed (opened 4)]
      = World (debug_stream w) (debug_level w) (caller w) (trace w ++ added)
      /\ Forall on_d added)
  /\ (exists added,
         World (Some stdout) 1 0
           [Wrote (opened 4) "main 42 run: "; Wrote (opened 4) "count=7";
            Wrote (opened 4) (String "010" ""); Flushed (opened 4)]
         = World (debug_stream w) (debug_level w) (caller w) (trace w ++ added)
         /\ Forall on_d added).
Proof.
  apply (only_the_destination_is_touched sample_site (Cint Tint 1)
           (Some (opened 4)) "hello" "count=%d" [AInt 7]
           (sample_world (Some stdout) 1 0)).
  - reflexivity.
  - reflexivity.
Defined.
